(** * stripe2qbo: the QuickBooks Online client and the settings file

    A shallow embedding of [stripe2qbo/qbo/QBO.py], [stripe2qbo/qbo/models.py]
    and [stripe2qbo/settings.py], and the properties of the specification
    checked against it.

    Layout:
    - [Py]       the Python values the code handles (parsed JSON, exceptions,
                 the dynamic operations [in], [x[k]], [x.get], [len],
                 [strftime], truthiness);
    - [Models]   the pydantic models of models.py with [model_dump] and
                 validation;
    - [QBO]      the client class, over an abstract transport;
    - [MemQBO]   an in-memory accounting service, used to run the client;
    - [Settings] settings.py over a file store;
    - the vocabulary of the properties, and the properties. *)

From Stdlib Require Import String Ascii List ZArith Lia Bool DecimalString.
From Stdlib Require Import Decimal DecimalFacts DecimalNat.
From Stdlib Require Import Floats.SpecFloat.
From stdpp Require Import gmap strings.
Import ListNotations.
Local Open Scope string_scope.
Local Open Scope list_scope.
Set Warnings "-register-all".

(* ===================================================================== *)
(** * Python values                                                       *)
(* ===================================================================== *)

Module Py.

(** What [json.loads] / [Response.json()] produce and what request bodies are
    built from. A [dict] keeps its insertion order, so an object is an
    association list; Python's [None] is [JNull]. *)
Inductive json : Type :=
| JNull
| JBool (b : bool)
| JInt (z : Z)
| JFloat (f : spec_float)
| JStr (s : string)
| JArr (l : list json)
| JObj (kvs : list (string * json)).

(** An f-string: literal text and interpolated values. An interpolated [str]
    formats as itself and is kept as text; any other interpolated value
    stands for its [repr]. *)
Inductive piece : Type :=
| Lit (s : string)
| Interp (v : json).

(** The exceptions the code raises or lets escape. *)
Inductive exn : Type :=
| Exception (msg : list piece)      (* raise Exception(f"...") *)
| KeyError (key : json)             (* d[k] with k missing *)
| IndexError                        (* l[0] on an empty sequence *)
| TypeError                         (* operation not supported by the value *)
| AttributeError                    (* method missing on the value *)
| ValidationError                   (* pydantic: the data does not fit the model *)
| TransportError (info : string).   (* raised by the HTTP layer or by .json() *)

Inductive Res (A : Type) : Type :=
| Ok (a : A)
| Raise (e : exn).
Arguments Ok {A} a.
Arguments Raise {A} e.

Definition res_bind {A B} (r : Res A) (k : A -> Res B) : Res B :=
  match r with
  | Ok a => k a
  | Raise e => Raise e
  end.

(** ** dict operations *)

Fixpoint dict_get (k : string) (kvs : list (string * json)) : option json :=
  match kvs with
  | [] => None
  | (k', v) :: rest => if String.eqb k k' then Some v else dict_get k rest
  end.

(** [d[k] = v]: an existing key keeps its position, a new key goes last. *)
Fixpoint dict_set (k : string) (v : json) (kvs : list (string * json))
  : list (string * json) :=
  match kvs with
  | [] => [(k, v)]
  | (k', v') :: rest =>
      if String.eqb k k' then (k', v) :: rest else (k', v') :: dict_set k v rest
  end.

Definition dict_has (k : string) (kvs : list (string * json)) : bool :=
  match dict_get k kvs with Some _ => true | None => false end.

(** ** dynamic operations on parsed JSON *)

Fixpoint substringb (k s : string) : bool :=
  String.prefix k s ||
  match s with
  | EmptyString => false
  | String _ s' => substringb k s'
  end.

(** [k in v] for a string [k]. *)
Definition contains (k : string) (v : json) : Res bool :=
  match v with
  | JObj kvs => Ok (dict_has k kvs)
  | JArr l =>
      Ok (existsb (fun x => match x with JStr s => String.eqb s k | _ => false end) l)
  | JStr s => Ok (substringb k s)
  | _ => Raise TypeError
  end.

(** [v[k]] for a string [k]. *)
Definition subscript (v : json) (k : string) : Res json :=
  match v with
  | JObj kvs =>
      match dict_get k kvs with
      | Some x => Ok x
      | None => Raise (KeyError (JStr k))
      end
  | _ => Raise TypeError
  end.

(** [v[0]]. *)
Definition item0 (v : json) : Res json :=
  match v with
  | JArr (x :: _) => Ok x
  | JArr [] => Raise IndexError
  | JStr (String c _) => Ok (JStr (String c EmptyString))
  | JStr EmptyString => Raise IndexError
  | JObj _ => Raise (KeyError (JInt 0))
  | _ => Raise TypeError
  end.

(** [v.get(k, d)]. *)
Definition get_default (v : json) (k : string) (d : json) : Res json :=
  match v with
  | JObj kvs =>
      match dict_get k kvs with
      | Some x => Ok x
      | None => Ok d
      end
  | _ => Raise AttributeError
  end.

(** [len(v)]. *)
Definition len (v : json) : Res nat :=
  match v with
  | JArr l => Ok (List.length l)
  | JObj kvs => Ok (List.length kvs)
  | JStr s => Ok (String.length s)
  | _ => Raise TypeError
  end.

(** [v is None]. *)
Definition is_None (v : json) : bool :=
  match v with JNull => true | _ => false end.

(** ** truthiness *)

(** [bool(x)] of a float: false exactly for the two zeros (a NaN is true). *)
Definition float_truthy (f : spec_float) : bool :=
  match f with
  | S754_zero _ => false
  | _ => true
  end.

(** [bool(s)] of a str. *)
Definition str_truthy (s : string) : bool :=
  match s with
  | EmptyString => false
  | String _ _ => true
  end.

(** ** datetime and strftime("%Y-%m-%d") *)

Record datetime : Type := {
  year : nat; month : nat; day : nat;
  hour : nat; minute : nat; second : nat; microsecond : nat
}.

Definition decimal (n : nat) : string := NilZero.string_of_uint (Nat.to_uint n).

Fixpoint zeros (n : nat) : string :=
  match n with
  | O => EmptyString
  | S n' => String "0" (zeros n')
  end.

(** Decimal, left-padded with zeros to [width] digits. *)
Definition zero_padded (width n : nat) : string :=
  let d := decimal n in zeros (width - String.length d) ++ d.

(** [d.strftime("%Y-%m-%d")], as CPython formats it through the C library
    on Linux (glibc): [%Y] is the year in decimal with no padding (999 for
    the year 999), [%m] and [%d] are padded to two digits; the time of day
    does not take part. *)
Definition strftime_Ymd (d : datetime) : string :=
  decimal (year d) ++ "-" ++ zero_padded 2 (month d) ++ "-" ++ zero_padded 2 (day d).

(** ** str methods used by settings.py *)

(** [s.split(sep)] for a one-character separator. *)
Fixpoint split (sep : ascii) (s : string) : list string :=
  match s with
  | EmptyString => [EmptyString]
  | String c s' =>
      if Ascii.eqb c sep then EmptyString :: split sep s'
      else match split sep s' with
           | w :: ws => String c w :: ws
           | [] => [String c EmptyString]
           end
  end.

Definition upper_ascii (c : ascii) : ascii :=
  let n := nat_of_ascii c in
  if (97 <=? n)%nat && (n <=? 122)%nat then ascii_of_nat (n - 32) else c.

Definition lower_ascii (c : ascii) : ascii :=
  let n := nat_of_ascii c in
  if (65 <=? n)%nat && (n <=? 90)%nat then ascii_of_nat (n + 32) else c.

Fixpoint lower (s : string) : string :=
  match s with
  | EmptyString => EmptyString
  | String c s' => String (lower_ascii c) (lower s')
  end.

(** [s.capitalize()] on ASCII text: first character upper, the rest lower.
    A string is its bytes here and only the letters a-z and A-Z change case;
    what [str.capitalize] does to letters outside ASCII is not modelled (the
    field names that settings.py feeds it are ASCII). *)
Definition capitalize (s : string) : string :=
  match s with
  | EmptyString => EmptyString
  | String c s' => String (upper_ascii c) (lower s')
  end.

(** ["".join(ws)]. *)
Definition join (ws : list string) : string :=
  fold_right String.append EmptyString ws.

End Py.
Export Py.

(* ===================================================================== *)
(** * models.py                                                           *)
(* ===================================================================== *)

Module Models.

(** class CurrencyRef / ItemRef / TaxRateRef: [value: str], [name: Optional[str]]. *)
Record CurrencyRef : Type := { CurrencyRef_value : string; CurrencyRef_name : option string }.
Record ItemRef : Type := { ItemRef_value : string; ItemRef_name : option string }.
Record TaxRateRef : Type := { TaxRateRef_value : string; TaxRateRef_name : option string }.
Record TaxCodeRef : Type := { TaxCodeRef_value : string }.

Record Customer : Type := {
  DisplayName : string;
  Id : string;
  Customer_CurrencyRef : CurrencyRef
}.

Record TaxRateDetail : Type := { TaxRateDetail_TaxRateRef : TaxRateRef }.
Record TaxRateList : Type := { TaxRateList_TaxRateDetail : list TaxRateDetail }.
Record TaxCode : Type := { TaxCode_Id : string; SalesTaxRateList : TaxRateList }.

Record TaxLineDetail : Type := {
  TaxLineDetail_TaxRateRef : TaxRateRef;
  PercentBased : bool;
  TaxPercent : spec_float;
  NetAmountTaxable : spec_float
}.

(** [DetailType] is the literal "TaxLineDetail" and is not stored. *)
Record TaxLineModel : Type := {
  TaxLineModel_Amount : spec_float;
  TaxLineModel_TaxLineDetail : TaxLineDetail
}.

Record TaxDetail : Type := {
  TotalTax : spec_float;
  TaxLine : option (list TaxLineModel);
  TxnTaxCodeRef : option TaxCodeRef
}.

Record SalesItemLineDetail : Type := {
  SalesItemLineDetail_ItemRef : ItemRef;
  SalesItemLineDetail_TaxCodeRef : option TaxCodeRef
}.

(** [DetailType] is the literal "SalesItemLineDetail" and is not stored. *)
Record InvoiceLine : Type := {
  Amount : spec_float;
  Description : string;
  InvoiceLine_SalesItemLineDetail : SalesItemLineDetail
}.

(** ** model_dump: fields in declaration order, [None] kept as null. *)

Definition dump_opt_str (o : option string) : json :=
  match o with Some s => JStr s | None => JNull end.

Definition ItemRef_model_dump (r : ItemRef) : json :=
  JObj [("value", JStr (ItemRef_value r)); ("name", dump_opt_str (ItemRef_name r))].

Definition TaxRateRef_model_dump (r : TaxRateRef) : json :=
  JObj [("value", JStr (TaxRateRef_value r)); ("name", dump_opt_str (TaxRateRef_name r))].

Definition TaxCodeRef_model_dump (r : TaxCodeRef) : json :=
  JObj [("value", JStr (TaxCodeRef_value r))].

Definition dump_opt_TaxCodeRef (o : option TaxCodeRef) : json :=
  match o with Some r => TaxCodeRef_model_dump r | None => JNull end.

Definition SalesItemLineDetail_model_dump (d : SalesItemLineDetail) : json :=
  JObj [("ItemRef", ItemRef_model_dump (SalesItemLineDetail_ItemRef d));
        ("TaxCodeRef", dump_opt_TaxCodeRef (SalesItemLineDetail_TaxCodeRef d))].

Definition InvoiceLine_model_dump (l : InvoiceLine) : json :=
  JObj [("Amount", JFloat (Amount l));
        ("Description", JStr (Description l));
        ("SalesItemLineDetail",
          SalesItemLineDetail_model_dump (InvoiceLine_SalesItemLineDetail l));
        ("DetailType", JStr "SalesItemLineDetail")].

Definition TaxLineDetail_model_dump (d : TaxLineDetail) : json :=
  JObj [("TaxRateRef", TaxRateRef_model_dump (TaxLineDetail_TaxRateRef d));
        ("PercentBased", JBool (PercentBased d));
        ("TaxPercent", JFloat (TaxPercent d));
        ("NetAmountTaxable", JFloat (NetAmountTaxable d))].

Definition TaxLineModel_model_dump (l : TaxLineModel) : json :=
  JObj [("DetailType", JStr "TaxLineDetail");
        ("Amount", JFloat (TaxLineModel_Amount l));
        ("TaxLineDetail", TaxLineDetail_model_dump (TaxLineModel_TaxLineDetail l))].

Definition TaxDetail_model_dump (t : TaxDetail) : json :=
  JObj [("TotalTax", JFloat (TotalTax t));
        ("TaxLine",
          match TaxLine t with
          | Some ls => JArr (map TaxLineModel_model_dump ls)
          | None => JNull
          end);
        ("TxnTaxCodeRef", dump_opt_TaxCodeRef (TxnTaxCodeRef t))].

(** ** validation: [Model( **data)] and [Model(field=..., ...)]

    pydantic 2 in its default mode: a [str] field takes a string only, an
    [Optional[str]] field without a default must be given and may be null,
    keys the model does not declare are ignored. *)

Definition validate_str (v : option json) : Res string :=
  match v with
  | Some (JStr s) => Ok s
  | _ => Raise ValidationError
  end.

Definition validate_opt_str (v : option json) : Res (option string) :=
  match v with
  | Some (JStr s) => Ok (Some s)
  | Some JNull => Ok None
  | _ => Raise ValidationError
  end.

(** The keyword arguments of [Model( **data)]: [data] has to be a mapping. *)
Definition kwargs (data : json) : Res (list (string * json)) :=
  match data with
  | JObj kvs => Ok kvs
  | _ => Raise TypeError
  end.

(** A nested model field given parsed JSON: an object, validated in turn. *)
Definition nested (v : option json) : Res (list (string * json)) :=
  match v with
  | Some (JObj kvs) => Ok kvs
  | _ => Raise ValidationError
  end.

Definition validate_CurrencyRef (kvs : list (string * json)) : Res CurrencyRef :=
  res_bind (validate_str (dict_get "value" kvs)) (fun v =>
  res_bind (validate_opt_str (dict_get "name" kvs)) (fun n =>
  Ok {| CurrencyRef_value := v; CurrencyRef_name := n |})).

Definition validate_Customer (kvs : list (string * json)) : Res Customer :=
  res_bind (validate_str (dict_get "DisplayName" kvs)) (fun dn =>
  res_bind (validate_str (dict_get "Id" kvs)) (fun i =>
  res_bind (nested (dict_get "CurrencyRef" kvs)) (fun c =>
  res_bind (validate_CurrencyRef c) (fun cr =>
  Ok {| DisplayName := dn; Id := i; Customer_CurrencyRef := cr |})))).

(** [ItemRef(value=v, name=n)]. *)
Definition validate_ItemRef (v n : json) : Res ItemRef :=
  res_bind (validate_str (Some v)) (fun v' =>
  res_bind (validate_opt_str (Some n)) (fun n' =>
  Ok {| ItemRef_value := v'; ItemRef_name := n' |})).

Definition validate_TaxRateRef (kvs : list (string * json)) : Res TaxRateRef :=
  res_bind (validate_str (dict_get "value" kvs)) (fun v =>
  res_bind (validate_opt_str (dict_get "name" kvs)) (fun n =>
  Ok {| TaxRateRef_value := v; TaxRateRef_name := n |})).

Definition validate_TaxRateDetail (v : json) : Res TaxRateDetail :=
  res_bind (nested (Some v)) (fun kvs =>
  res_bind (nested (dict_get "TaxRateRef" kvs)) (fun r =>
  res_bind (validate_TaxRateRef r) (fun ref =>
  Ok {| TaxRateDetail_TaxRateRef := ref |}))).

Fixpoint validate_each {A} (f : json -> Res A) (l : list json) : Res (list A) :=
  match l with
  | [] => Ok []
  | x :: rest =>
      res_bind (f x) (fun a =>
      res_bind (validate_each f rest) (fun r => Ok (a :: r)))
  end.

Definition validate_TaxRateList (kvs : list (string * json)) : Res TaxRateList :=
  match dict_get "TaxRateDetail" kvs with
  | Some (JArr l) =>
      res_bind (validate_each validate_TaxRateDetail l) (fun ds =>
      Ok {| TaxRateList_TaxRateDetail := ds |})
  | _ => Raise ValidationError
  end.

Definition validate_TaxCode (kvs : list (string * json)) : Res TaxCode :=
  res_bind (validate_str (dict_get "Id" kvs)) (fun i =>
  res_bind (nested (dict_get "SalesTaxRateList" kvs)) (fun l =>
  res_bind (validate_TaxRateList l) (fun rl =>
  Ok {| TaxCode_Id := i; SalesTaxRateList := rl |}))).

End Models.
Export Models.

(* ===================================================================== *)
(** * qbo/QBO.py: the client                                              *)
(* ===================================================================== *)

Module QBO.

(** Modelled from the spec: [Token] (stripe2qbo/qbo/auth.py, not part of the
    sources at hand) carries the realm identifier and the bearer access token
    that [set_token] copies into the client. *)
Record Token : Type := { Token_realm_id : string; Token_access_token : string }.

(** The instance attributes of [class QBO]; both start as [None]. *)
Record QBO : Type := { realm_id : option string; access_token : option string }.

Definition new_QBO : QBO := {| realm_id := None; access_token := None |}.

(** The keyword arguments of one call of [qbo_request]. *)
Record Request : Type := {
  path : string;
  method : string;
  body : option json;
  request_access_token : string;
  request_realm_id : string
}.

(** What running a method leaves behind: its value or the exception that
    escaped, the client, the remote world, and the requests it handed to the
    transport, oldest first. *)
Record Outcome (World A : Type) : Type := {
  result : Res A;
  self_after : QBO;
  world_after : World;
  requests : list Request
}.
Arguments result {World A} _.
Arguments self_after {World A} _.
Arguments world_after {World A} _.
Arguments requests {World A} _.

(** What [get_or_create_customer] hands back: the element of the query
    response as parsed (no model is built from it), or the [Customer] model
    that [create_customer] built. *)
Inductive customer_value : Type :=
| Parsed (j : json)
| Built (c : Customer).

(** [customer.Id] of a model, [customer["Id"]] of a parsed element. *)
Definition customer_id (c : customer_value) : Res json :=
  match c with
  | Parsed j => subscript j "Id"
  | Built m => Ok (JStr (Id m))
  end.

Definition opt_date (d : option datetime) : json :=
  match d with
  | Some d => JStr (strftime_Ymd d)
  | None => JNull
  end.

Definition ref (v : json) : json := JObj [("value", v)].

Section Client.

Context {World : Type}.

(** [qbo_request] (stripe2qbo/qbo/qbo_request.py) is the HTTP transport; the
    client only calls it and reads [response.json()], always right after the
    call. It is a parameter here: one call takes the remote world to a new
    one and yields the parsed response body, or raises (the transport's own
    exception, or that of [response.json()] on a body that is not JSON). *)
Variable qbo_request : Request -> World -> Res json * World.

Definition M (A : Type) : Type := QBO -> World -> Outcome World A.

Definition ret {A} (a : A) : M A :=
  fun self w => {| result := Ok a; self_after := self; world_after := w; requests := [] |}.

Definition raise {A} (e : exn) : M A :=
  fun self w => {| result := Raise e; self_after := self; world_after := w; requests := [] |}.

Definition bind {A B} (m : M A) (k : A -> M B) : M B :=
  fun self w =>
    let o := m self w in
    match result o with
    | Ok a =>
        let o' := k a (self_after o) (world_after o) in
        {| result := result o'; self_after := self_after o';
           world_after := world_after o'; requests := requests o ++ requests o' |}
    | Raise e =>
        {| result := Raise e; self_after := self_after o;
           world_after := world_after o; requests := requests o |}
    end.

Definition lift {A} (r : Res A) : M A :=
  match r with
  | Ok a => ret a
  | Raise e => raise e
  end.

Notation "x <- c ;; k" := (bind c (fun x => k))
  (at level 100, c at next level, right associativity).

Definition set_token (token : Token) : M unit :=
  fun _ w =>
    {| result := Ok tt;
       self_after := {| realm_id := Some (Token_realm_id token);
                        access_token := Some (Token_access_token token) |};
       world_after := w; requests := [] |}.

Definition _request (path : string) (method : string) (body : option json) : M json :=
  fun self w =>
    match access_token self, realm_id self with
    | Some tok, Some realm =>
        let rq := {| path := path; method := method; body := body;
                     request_access_token := tok; request_realm_id := realm |} in
        let (r, w') := qbo_request rq w in
        {| result := r; self_after := self; world_after := w'; requests := [rq] |}
    | _, _ =>
        {| result := Raise (Exception [Lit "QBO token not set"]);
           self_after := self; world_after := w; requests := [] |}
    end.

Definition _query (query : string) : M json :=
  response <- _request ("/query?query=" ++ query) "GET" None ;;
  present <- lift (contains "QueryResponse" response) ;;
  if negb present then raise (Exception [Lit "Query failed: "; Interp response])
  else ret response.

(** [response.json()["QueryResponse"].get(entity, [])]. *)
Definition query_rows (response : json) (entity : string) : Res json :=
  res_bind (subscript response "QueryResponse") (fun qr =>
  get_default qr entity (JArr [])).

Definition get_tax_code (tax_code_id : string) : M (option TaxCode) :=
  response <- _query ("select * from TaxCode where Id = '" ++ tax_code_id ++ "'") ;;
  tax_codes <- lift (query_rows response "TaxCode") ;;
  n <- lift (len tax_codes) ;;
  if Nat.eqb n 0 then ret None
  else
    first <- lift (item0 tax_codes) ;;
    kvs <- lift (kwargs first) ;;
    tax_code <- lift (validate_TaxCode kvs) ;;
    ret (Some tax_code).

(** Returns [None] ([JNull]) or [customers[0]] as it was parsed. *)
Definition get_customer_by_name (customer_name : string) : M json :=
  response <-
    _query ("select * from Customer where DisplayName = '" ++ customer_name ++ "'") ;;
  customers <- lift (query_rows response "Customer") ;;
  n <- lift (len customers) ;;
  if Nat.eqb n 0 then ret JNull
  else lift (item0 customers).

Definition create_customer_body (customer_name currency : string) : json :=
  JObj [("DisplayName", JStr customer_name);
        ("CurrencyRef", ref (JStr currency))].

Definition create_customer (customer_name currency : string) : M Customer :=
  response <- _request "customer" "POST"
                (Some (create_customer_body customer_name currency)) ;;
  present <- lift (contains "Customer" response) ;;
  if negb present then raise (Exception [Lit "Error creating customer: "; Interp response])
  else
    data <- lift (subscript response "Customer") ;;
    kvs <- lift (kwargs data) ;;
    lift (validate_Customer kvs).

Definition get_or_create_customer (customer_name currency : string) : M customer_value :=
  customer <- get_customer_by_name customer_name ;;
  if is_None customer then
    customer <- create_customer customer_name currency ;;
    if negb (String.eqb (CurrencyRef_value (Customer_CurrencyRef customer)) currency)
    then
      (* if already exists with different currency, create a new one *)
      created <- create_customer (customer_name ++ " (" ++ currency ++ ")") currency ;;
      ret (Built created)
    else ret (Built customer)
  else ret (Parsed customer).

Definition get_item_by_name (item_name : string) : M (option ItemRef) :=
  response <- _query ("select * from Item where Name = '" ++ item_name ++ "'") ;;
  items <- lift (query_rows response "Item") ;;
  n <- lift (len items) ;;
  if Nat.eqb n 0 then ret None
  else
    value <- lift (res_bind (item0 items) (fun i => subscript i "Id")) ;;
    name <- lift (res_bind (item0 items) (fun i => subscript i "Name")) ;;
    item <- lift (validate_ItemRef value name) ;;
    ret (Some item).

Definition create_item_body (item_name account_id : string) : json :=
  JObj [("Name", JStr item_name);
        ("Type", JStr "Service");
        ("IncomeAccountRef", ref (JStr account_id))].

Definition create_item (item_name account_id : string) : M ItemRef :=
  response <- _request "item" "POST" (Some (create_item_body item_name account_id)) ;;
  value <- lift (res_bind (subscript response "Item") (fun i => subscript i "Id")) ;;
  name <- lift (res_bind (subscript response "Item") (fun i => subscript i "Name")) ;;
  lift (validate_ItemRef value name).

Definition get_or_create_item (item_name account_id : string) : M ItemRef :=
  item <- get_item_by_name item_name ;;
  match item with
  | None => create_item item_name account_id
  | Some item => ret item
  end.

Definition create_account_body (account_name account_type : string) : json :=
  JObj [("Name", JStr account_name); ("AccountType", JStr account_type)].

Definition create_account (account_name account_type : string) : M json :=
  response <- _request "/account" "POST"
                (Some (create_account_body account_name account_type)) ;;
  lift (res_bind (subscript response "Account") (fun a => subscript a "Id")).

(** Returns [None] ([JNull]) or [accounts[0]["Id"]] as it was parsed. *)
Definition get_account_id (account_name : string) : M json :=
  response <- _query ("select * from Account where Name = '" ++ account_name ++ "'") ;;
  accounts <- lift (query_rows response "Account") ;;
  n <- lift (len accounts) ;;
  if Nat.eqb n 0 then ret JNull
  else if Nat.ltb 1 n
  then raise (Exception [Lit "Multiple accounts found with "; Lit account_name])
  else lift (res_bind (item0 accounts) (fun a => subscript a "Id")).

Definition get_or_create_account (account_name account_type : string) : M json :=
  acount_id <- get_account_id account_name ;;
  if negb (is_None acount_id) then ret acount_id
  else create_account account_name account_type.

(** ** the transactions *)

Definition create_invoice_body
    (customer_id : string) (lines : list InvoiceLine)
    (created_date : option datetime) (currency : option string)
    (private_note : option string) (due_date txn_date : option datetime)
    (tax_detail : option TaxDetail) (inv_number : option string)
  : list (string * json) :=
  let body :=
    [("CustomerRef", ref (JStr customer_id));
     ("CurrencyRef", ref (dump_opt_str currency));
     ("Line", JArr (map InvoiceLine_model_dump lines));
     ("TxnDate", opt_date txn_date);
     ("DueDate", opt_date due_date);
     ("TxnTaxDetail",
       match tax_detail with
       | Some t => TaxDetail_model_dump t
       | None => JNull
       end);
     ("PrivateNote", dump_opt_str private_note);
     ("DocNumber", dump_opt_str inv_number)] in
  let body :=
    match due_date with
    | Some d => dict_set "DueDate" (JStr (strftime_Ymd d)) body
    | None => body
    end in
  match created_date with
  | Some d => dict_set "TxnDate" (JStr (strftime_Ymd d)) body
  | None => body
  end.

Definition create_invoice
    (customer_id : string) (lines : list InvoiceLine)
    (created_date : option datetime) (currency : option string)
    (private_note : option string) (due_date txn_date : option datetime)
    (tax_detail : option TaxDetail) (inv_number : option string)
  : M json :=
  response <- _request "invoice" "POST"
                (Some (JObj (create_invoice_body customer_id lines created_date currency
                               private_note due_date txn_date tax_detail inv_number))) ;;
  lift (res_bind (subscript response "Invoice") (fun i => subscript i "Id")).

Definition create_invoice_payment_body
    (invoice_id : option string) (customer_id : string) (amount : spec_float)
    (date : datetime) (qbo_account_id : string) (currency : string)
    (exchange_rate : option spec_float) (private_note : string)
  : list (string * json) :=
  let body :=
    [("TotalAmt", JFloat amount);
     ("CustomerRef", ref (JStr customer_id));
     ("TxnDate", JStr (strftime_Ymd date));
     ("DepositToAccountRef", ref (JStr qbo_account_id));
     ("PrivateNote", JStr private_note);
     ("CurrencyRef", ref (JStr currency));
     ("ExchangeRate",
       (* exchange_rate or "1" *)
       match exchange_rate with
       | Some r => if float_truthy r then JFloat r else JStr "1"
       | None => JStr "1"
       end)] in
  match invoice_id with
  | Some i =>
      if str_truthy i then
        dict_set "Line"
          (JArr [JObj [("Amount", JFloat amount);
                       ("LinkedTxn",
                         JArr [JObj [("TxnId", JStr i); ("TxnType", JStr "Invoice")]])]])
          body
      else body
  | None => body
  end.

Definition create_invoice_payment
    (invoice_id : option string) (customer_id : string) (amount : spec_float)
    (date : datetime) (qbo_account_id : string) (currency : string)
    (exchange_rate : option spec_float) (private_note : string)
  : M json :=
  response <- _request "/payment" "POST"
                (Some (JObj (create_invoice_payment_body invoice_id customer_id amount date
                               qbo_account_id currency exchange_rate private_note))) ;;
  lift (res_bind (subscript response "Payment") (fun p => subscript p "Id")).

Definition create_expense_body
    (amount : spec_float) (date : datetime)
    (bank_account_id vendor_id expense_account_id private_note : string)
    (description : option string)
  : list (string * json) :=
  [("TotalAmt", JFloat amount);
   ("AccountRef", ref (JStr bank_account_id));
   ("PaymentType", JStr "Check");
   ("Line",
     JArr [JObj [("Amount", JFloat amount);
                 ("DetailType", JStr "AccountBasedExpenseLineDetail");
                 ("AccountBasedExpenseLineDetail",
                   JObj [("AccountRef", ref (JStr expense_account_id))]);
                 ("Description", dump_opt_str description)]]);
   ("EntityRef", ref (JStr vendor_id));
   ("TxnDate", JStr (strftime_Ymd date));
   ("PrivateNote", JStr private_note)].

Definition create_expense
    (amount : spec_float) (date : datetime)
    (bank_account_id vendor_id expense_account_id private_note : string)
    (description : option string)
  : M json :=
  response <- _request "/purchase" "POST"
                (Some (JObj (create_expense_body amount date bank_account_id vendor_id
                               expense_account_id private_note description))) ;;
  lift (res_bind (subscript response "Purchase") (fun p => subscript p "Id")).

Definition create_transfer_body
    (amount : spec_float) (date : datetime)
    (source_account_id destination_account_id private_note : string)
  : list (string * json) :=
  [("Amount", JFloat amount);
   ("FromAccountRef", ref (JStr source_account_id));
   ("ToAccountRef", ref (JStr destination_account_id));
   ("TxnDate", JStr (strftime_Ymd date));
   ("PrivateNote", JStr private_note)].

Definition create_transfer
    (amount : spec_float) (date : datetime)
    (source_account_id destination_account_id private_note : string)
  : M json :=
  response <- _request "/transfer" "POST"
                (Some (JObj (create_transfer_body amount date source_account_id
                               destination_account_id private_note))) ;;
  lift (res_bind (subscript response "Transfer") (fun t => subscript t "Id")).

End Client.

End QBO.
Export QBO.

(* ===================================================================== *)
(** * Transports to run the client against                                *)
(* ===================================================================== *)

(** A transport that gives the same answer to every request and has no
    state: what a test double with a canned response does. *)
Definition canned (answer : Res json) : Request -> unit -> Res json * unit :=
  fun _ w => (answer, w).

Module MemQBO.

(** Modelled from the spec: the accounting service behind [qbo_request]
    (stripe2qbo/qbo/qbo_request.py and the remote API are not part of the
    sources at hand), after the request and response shapes of the
    specification's section on external interfaces: a query lists the
    entities whose field equals the quoted value, in creation order, under
    "QueryResponse" (with no entity key when nothing matches); a create stores
    the entity under an identifier the service assigns and answers with the
    entity under its envelope key; anything else is answered with a "Fault". *)

Record customer_row : Type := { c_name : string; c_id : string; c_currency : string }.
Record named_row : Type := { n_name : string; n_id : string }.

Record World : Type := {
  customers : list customer_row;
  items : list named_row;
  accounts : list named_row;
  next_id : nat
}.

Definition customer_json (r : customer_row) : json :=
  JObj [("DisplayName", JStr (c_name r));
        ("Id", JStr (c_id r));
        ("CurrencyRef", JObj [("value", JStr (c_currency r)); ("name", JNull)])].

Definition named_json (r : named_row) : json :=
  JObj [("Name", JStr (n_name r)); ("Id", JStr (n_id r))].

Definition query_response (entity : string) (rows : list json) : json :=
  match rows with
  | [] => JObj [("QueryResponse", JObj [])]
  | _ => JObj [("QueryResponse", JObj [(entity, JArr rows)])]
  end.

Definition fault : json :=
  JObj [("Fault", JObj [("type", JStr "ValidationFault")])].

Fixpoint strip_prefix (p s : string) : option string :=
  match p with
  | EmptyString => Some s
  | String a p' =>
      match s with
      | String b s' => if Ascii.eqb a b then strip_prefix p' s' else None
      | EmptyString => None
      end
  end.

(** Drops the closing quote. *)
Fixpoint chop_quote (s : string) : option string :=
  match s with
  | EmptyString => None
  | String c EmptyString => if Ascii.eqb c "'" then Some EmptyString else None
  | String c s' => option_map (String c) (chop_quote s')
  end.

(** The quoted value of a query that starts with [prefix]. *)
Definition where_value (prefix path : string) : option string :=
  match strip_prefix prefix path with
  | Some rest => chop_quote rest
  | None => None
  end.

Definition named (n : string) (rows : list named_row) : list named_row :=
  List.filter (fun r => String.eqb (n_name r) n) rows.

Definition customer_prefix : string :=
  "/query?query=select * from Customer where DisplayName = '".
Definition item_prefix : string := "/query?query=select * from Item where Name = '".
Definition account_prefix : string := "/query?query=select * from Account where Name = '".

Definition answer_query (p : string) (w : World) : json :=
  match where_value customer_prefix p with
  | Some n =>
      query_response "Customer"
        (map customer_json (List.filter (fun r => String.eqb (c_name r) n) (customers w)))
  | None =>
  match where_value item_prefix p with
  | Some n => query_response "Item" (map named_json (named n (items w)))
  | None =>
  match where_value account_prefix p with
  | Some n => query_response "Account" (map named_json (named n (accounts w)))
  | None =>
  match strip_prefix "/query?query=" p with
  | Some _ => query_response "" []
  | None => fault
  end end end end.

Definition fresh_id (w : World) : string := decimal (next_id w).

Definition new_customer (name currency : string) (w : World) : customer_row :=
  {| c_name := name; c_id := fresh_id w; c_currency := currency |}.

Definition new_named (name : string) (w : World) : named_row :=
  {| n_name := name; n_id := fresh_id w |}.

Definition answer_create (p : string) (b : option json) (w : World) : json * World :=
  if String.eqb p "customer" then
    match b with
    | Some (JObj kvs) =>
        match dict_get "DisplayName" kvs, dict_get "CurrencyRef" kvs with
        | Some (JStr n), Some (JObj cr) =>
            match dict_get "value" cr with
            | Some (JStr c) =>
                let row := new_customer n c w in
                (JObj [("Customer", customer_json row)],
                 {| customers := customers w ++ [row]; items := items w;
                    accounts := accounts w; next_id := S (next_id w) |})
            | _ => (fault, w)
            end
        | _, _ => (fault, w)
        end
    | _ => (fault, w)
    end
  else if String.eqb p "item" then
    match b with
    | Some (JObj kvs) =>
        match dict_get "Name" kvs with
        | Some (JStr n) =>
            let row := new_named n w in
            (JObj [("Item", named_json row)],
             {| customers := customers w; items := items w ++ [row];
                accounts := accounts w; next_id := S (next_id w) |})
        | _ => (fault, w)
        end
    | _ => (fault, w)
    end
  else if String.eqb p "/account" then
    match b with
    | Some (JObj kvs) =>
        match dict_get "Name" kvs with
        | Some (JStr n) =>
            let row := new_named n w in
            (JObj [("Account", named_json row)],
             {| customers := customers w; items := items w;
                accounts := accounts w ++ [row]; next_id := S (next_id w) |})
        | _ => (fault, w)
        end
    | _ => (fault, w)
    end
  else (fault, w).

Definition qbo_request (rq : Request) (w : World) : Res json * World :=
  if String.eqb (method rq) "GET" then (Ok (answer_query (path rq) w), w)
  else if String.eqb (method rq) "POST" then
    let (r, w') := answer_create (path rq) (body rq) w in (Ok r, w')
  else (Ok fault, w).

Definition empty : World :=
  {| customers := []; items := []; accounts := []; next_id := 1 |}.

End MemQBO.

(* ===================================================================== *)
(** * settings.py                                                         *)
(* ===================================================================== *)

Module Settings.

Definition _snake_to_camel (s : string) : string :=
  match split "_" s with
  | w :: ws => w ++ join (map capitalize ws)
  | [] => EmptyString
  end.

(** [class Settings]; [stripe_fee_account_id] is annotated twice and is one
    field, [default_income_account_id] defaults to [None]. *)
Record Settings : Type := {
  stripe_clearing_account_id : string;
  stripe_payout_account_id : string;
  stripe_fee_account_id : string;
  stripe_vendor_id : string;
  default_income_account_id : option string;
  default_tax_code_id : string;
  exempt_tax_code_id : string
}.

(** [settings.model_dump()]: called without [by_alias], so every key is the
    field's own name, in declaration order; the aliases that
    [alias_generator] derives are not used for output. *)
Definition model_dump (s : Settings) : json :=
  JObj [("stripe_clearing_account_id", JStr (stripe_clearing_account_id s));
        ("stripe_payout_account_id", JStr (stripe_payout_account_id s));
        ("stripe_fee_account_id", JStr (stripe_fee_account_id s));
        ("stripe_vendor_id", JStr (stripe_vendor_id s));
        ("default_income_account_id", dump_opt_str (default_income_account_id s));
        ("default_tax_code_id", JStr (default_tax_code_id s));
        ("exempt_tax_code_id", JStr (exempt_tax_code_id s))].

(** The value given for a field on input: under its alias
    ([alias_generator]) or, failing that, under its own name
    ([populate_by_name]). *)
Definition field_input (name : string) (kvs : list (string * json)) : option json :=
  match dict_get (_snake_to_camel name) kvs with
  | Some v => Some v
  | None => dict_get name kvs
  end.

(** A field with default [None]. *)
Definition validate_default_none (v : option json) : Res (option string) :=
  match v with
  | None => Ok None
  | Some _ => validate_opt_str v
  end.

(** [Settings( **data)]. *)
Definition validate_Settings (kvs : list (string * json)) : Res Settings :=
  res_bind (validate_str (field_input "stripe_clearing_account_id" kvs)) (fun a =>
  res_bind (validate_str (field_input "stripe_payout_account_id" kvs)) (fun b =>
  res_bind (validate_str (field_input "stripe_fee_account_id" kvs)) (fun c =>
  res_bind (validate_str (field_input "stripe_vendor_id" kvs)) (fun d =>
  res_bind (validate_default_none (field_input "default_income_account_id" kvs)) (fun e =>
  res_bind (validate_str (field_input "default_tax_code_id" kvs)) (fun f =>
  res_bind (validate_str (field_input "exempt_tax_code_id" kvs)) (fun g =>
  Ok {| stripe_clearing_account_id := a; stripe_payout_account_id := b;
        stripe_fee_account_id := c; stripe_vendor_id := d;
        default_income_account_id := e; default_tax_code_id := f;
        exempt_tax_code_id := g |}))))))).

(** The files that hold JSON documents, by path. [json.dump] and [json.load]
    are the printer and the parser of the document and are not modelled at
    the level of characters: a file holds the document itself. *)
Abbreviation files := (gmap string json).

Definition load_from_file (path : string) (fs : files) : Res (option Settings) :=
  match fs !! path with
  | None => Ok None
  | Some doc =>
      res_bind (kwargs doc) (fun kvs =>
      res_bind (validate_Settings kvs) (fun s => Ok (Some s)))
  end.

Definition save (settings : Settings) (path : string) (fs : files) : files :=
  <[path := model_dump settings]> fs.

End Settings.

(* ===================================================================== *)
(** * Vocabulary of the properties                                        *)
(* ===================================================================== *)

(** A client after [set_token]. *)
Definition configured (realm tok : string) : QBO :=
  {| realm_id := Some realm; access_token := Some tok |}.

(** The request a configured client hands to the transport. *)
Definition request_of (realm tok p m : string) (b : option json) : Request :=
  {| path := p; method := m; body := b;
     request_access_token := tok; request_realm_id := realm |}.

(** The method was stopped at the token check: the "QBO token not set"
    exception escapes, nothing was sent, client and remote world are as
    before. *)
Definition refused {World A} (m : M A) (self : QBO) (w : World) : Prop :=
  m self w = {| result := Raise (Exception [Lit "QBO token not set"]);
                self_after := self; world_after := w; requests := [] |}.

Definition is_post (rq : Request) : bool := String.eqb (method rq) "POST".

(** How many create requests are among [rqs]. *)
Definition posts (rqs : list Request) : nat := List.length (List.filter is_post rqs).

(** The f-string [msg] interpolates the value [v]. *)
Definition mentions (msg : list piece) (v : json) : Prop := In (Interp v) msg.

(** The request [_query] sends for the query text [q]. *)
Definition query_request (realm tok q : string) : Request :=
  request_of realm tok ("/query?query=" ++ q) "GET" None.

Definition customer_query (realm tok customer_name : string) : Request :=
  query_request realm tok
    ("select * from Customer where DisplayName = '" ++ customer_name ++ "'").

Definition item_query (realm tok item_name : string) : Request :=
  query_request realm tok ("select * from Item where Name = '" ++ item_name ++ "'").

Definition account_query (realm tok account_name : string) : Request :=
  query_request realm tok ("select * from Account where Name = '" ++ account_name ++ "'").

Definition create_customer_request (realm tok name currency : string) : Request :=
  request_of realm tok "customer" "POST" (Some (create_customer_body name currency)).

Definition create_item_request (realm tok name account : string) : Request :=
  request_of realm tok "item" "POST" (Some (create_item_body name account)).

Definition create_account_request (realm tok name type : string) : Request :=
  request_of realm tok "/account" "POST" (Some (create_account_body name type)).

(** The [ItemRef] the client builds of an item the in-memory service lists. *)
Definition item_of_row (r : MemQBO.named_row) : ItemRef :=
  {| ItemRef_value := MemQBO.n_id r; ItemRef_name := Some (MemQBO.n_name r) |}.

(** The exception of an ambiguous account lookup. *)
Definition conflict (account_name : string) : exn :=
  Exception [Lit "Multiple accounts found with "; Lit account_name].

(** A step that neither sends a request nor touches client or world. *)
Definition pure_step {World A : Type} (m : @M World A) : Prop :=
  forall s (w : World),
    m s w = {| result := result (m s w); self_after := s; world_after := w;
               requests := [] |}.

(** A method of a configured client that hands the transport exactly [rq]
    and leaves the client as it is. *)
Definition sends_only {World A : Type}
    (qbo_request : Request -> World -> Res json * World) (realm tok : string)
    (rq : Request) (m : M A) : Prop :=
  forall w : World,
    self_after (m (configured realm tok) w) = configured realm tok /\
    world_after (m (configured realm tok) w) = snd (qbo_request rq w) /\
    requests (m (configured realm tok) w) = [rq].

(** What the client may expect of the accounting service when nobody else
    changes it: a query changes nothing, and an entity created under a name
    for which the lookup found nothing is what the lookup finds afterwards. *)
Record service_contract {World : Type}
    (qbo_request : Request -> World -> Res json * World) : Prop := {
  reads_leave_world :
    forall rq w, method rq = "GET" -> snd (qbo_request rq w) = w;
  created_customer_is_found :
    forall realm tok name currency w c,
      result (get_customer_by_name qbo_request name (configured realm tok) w) = Ok JNull ->
      result (create_customer qbo_request name currency (configured realm tok) w) = Ok c ->
      exists j,
        result (get_customer_by_name qbo_request name (configured realm tok)
                  (world_after (create_customer qbo_request name currency
                                  (configured realm tok) w))) = Ok j /\
        subscript j "Id" = Ok (JStr (Id c));
  created_item_is_found :
    forall realm tok name account w i,
      result (get_item_by_name qbo_request name (configured realm tok) w) = Ok None ->
      result (create_item qbo_request name account (configured realm tok) w) = Ok i ->
      exists i',
        result (get_item_by_name qbo_request name (configured realm tok)
                  (world_after (create_item qbo_request name account
                                  (configured realm tok) w))) = Ok (Some i') /\
        ItemRef_value i' = ItemRef_value i;
  created_account_is_found :
    forall realm tok name type w id,
      result (get_account_id qbo_request name (configured realm tok) w) = Ok JNull ->
      result (create_account qbo_request name type (configured realm tok) w) = Ok id ->
      is_None id = false ->
      result (get_account_id qbo_request name (configured realm tok)
                (world_after (create_account qbo_request name type
                                (configured realm tok) w))) = Ok id
}.

(** The disambiguated customer "{name} ({currency})" was asked for: the
    mark of the currency-mismatch branch of [get_or_create_customer]. *)
Definition mismatch_requested (name currency : string) (rqs : list Request) : bool :=
  existsb (fun rq =>
             match body rq with
             | Some (JObj kvs) =>
                 match dict_get "DisplayName" kvs with
                 | Some (JStr n) => String.eqb n (name ++ " (" ++ currency ++ ")")
                 | _ => false
                 end
             | _ => false
             end) rqs.

(** ** sample inputs *)

Definition two_accounts : list json :=
  [JObj [("Name", JStr "Stripe Fees"); ("Id", JStr "91")];
   JObj [("Name", JStr "Stripe Fees"); ("Id", JStr "92")]].

Definition sample_date : datetime :=
  {| year := 2023; month := 7; day := 4;
     hour := 23; minute := 59; second := 58; microsecond := 1 |}.

(** 50.0 *)
Definition sample_amount : spec_float := S754_finite false 25 1.

Definition fault_fields : list (string * json) :=
  [("Fault", JObj [("Error", JArr [JObj [("Message", JStr "Request has invalid or unsupported property")]]);
                   ("type", JStr "ValidationFault")])].

Definition acme_usd : MemQBO.customer_row :=
  {| MemQBO.c_name := "Acme Corp"; MemQBO.c_id := "1"; MemQBO.c_currency := "USD" |}.

Definition acme_world : MemQBO.World :=
  {| MemQBO.customers := [acme_usd]; MemQBO.items := []; MemQBO.accounts := [];
     MemQBO.next_id := 2 |}.

Definition sample_settings : Settings.Settings :=
  {| Settings.stripe_clearing_account_id := "91";
     Settings.stripe_payout_account_id := "35";
     Settings.stripe_fee_account_id := "92";
     Settings.stripe_vendor_id := "56";
     Settings.default_income_account_id := None;
     Settings.default_tax_code_id := "TAX";
     Settings.exempt_tax_code_id := "NON" |}.





(** ** vocabulary of the further properties *)


(** Method and path of each request, in the order sent. *)
Definition sent (rqs : list Request) : list (string * string) :=
  map (fun rq => (method rq, path rq)) rqs.

(** The fields of [Settings] that have no default. *)
Definition required_fields : list string :=
  ["stripe_clearing_account_id"; "stripe_payout_account_id"; "stripe_fee_account_id";
   "stripe_vendor_id"; "default_tax_code_id"; "exempt_tax_code_id"].

(** A settings document keyed by the aliases [alias_generator] derives. *)
Definition camel_dump (s : Settings.Settings) : json :=
  JObj [(Settings._snake_to_camel "stripe_clearing_account_id",
          JStr (Settings.stripe_clearing_account_id s));
        (Settings._snake_to_camel "stripe_payout_account_id",
          JStr (Settings.stripe_payout_account_id s));
        (Settings._snake_to_camel "stripe_fee_account_id",
          JStr (Settings.stripe_fee_account_id s));
        (Settings._snake_to_camel "stripe_vendor_id",
          JStr (Settings.stripe_vendor_id s));
        (Settings._snake_to_camel "default_income_account_id",
          dump_opt_str (Settings.default_income_account_id s));
        (Settings._snake_to_camel "default_tax_code_id",
          JStr (Settings.default_tax_code_id s));
        (Settings._snake_to_camel "exempt_tax_code_id",
          JStr (Settings.exempt_tax_code_id s))].

(** No character of [s] is an underscore. *)
Fixpoint underscore_free (s : string) : bool :=
  match s with
  | EmptyString => true
  | String c s' => negb (Ascii.eqb c "_") && underscore_free s'
  end.

(** The exception of a query answered without the results envelope. *)
Definition query_failed {A : Type} (response : json) : Res A :=
  Raise (Exception [Lit "Query failed: "; Interp response]).

(** The value a create call reads: [response[key]["Id"]]. *)
Definition entity_id (response : json) (key : string) : Res json :=
  res_bind (subscript response key) (fun e => subscript e "Id").

(** An answer with no match for any query and, for a create, a customer
    that the service keeps in its home currency USD. *)
Definition home_currency_answer : json :=
  JObj [("QueryResponse", JObj []);
        ("Customer",
          JObj [("DisplayName", JStr "Acme Corp"); ("Id", JStr "58");
                ("CurrencyRef", JObj [("value", JStr "USD");
                                      ("name", JStr "United States Dollar")])])].

Definition two_items : list json :=
  [JObj [("Name", JStr "Consulting"); ("Id", JStr "11")];
   JObj [("Name", JStr "Consulting"); ("Id", JStr "12")]].

(* ===================================================================== *)
(** * The monad and the token check                                       *)
(* ===================================================================== *)

Section ClientFacts.

Context {World : Type} (qbo_request : Request -> World -> Res json * World).

Lemma bind_Ok {A B} (m : M A) (k : A -> M B) self (w : World) a :
  result (m self w) = Ok a ->
  bind m k self w =
    let o := m self w in
    let o' := k a (self_after o) (world_after o) in
    {| result := result o'; self_after := self_after o';
       world_after := world_after o'; requests := requests o ++ requests o' |}.
Proof. intros H. unfold bind. rewrite H. reflexivity. Qed.

Lemma bind_Raise {A B} (m : M A) (k : A -> M B) self (w : World) e :
  result (m self w) = Raise e ->
  bind m k self w =
    let o := m self w in
    {| result := Raise e; self_after := self_after o;
       world_after := world_after o; requests := requests o |}.
Proof. intros H. unfold bind. rewrite H. reflexivity. Qed.

(** A pure step sends nothing and changes nothing. *)
Lemma lift_pure {A} (r : Res A) self (w : World) :
  lift r self w =
    {| result := r; self_after := self; world_after := w; requests := [] |}.
Proof. destruct r; reflexivity. Qed.

(** One call of [_request] by a configured client: the transport is called
    once, with the client's token and realm. *)
Lemma _request_configured realm tok p m b w :
  _request qbo_request p m b (configured realm tok) w =
    {| result := fst (qbo_request (request_of realm tok p m b) w);
       self_after := configured realm tok;
       world_after := snd (qbo_request (request_of realm tok p m b) w);
       requests := [request_of realm tok p m b] |}.
Proof.
  unfold _request, request_of. simpl.
  destruct (qbo_request _ w); reflexivity.
Qed.

Lemma _request_refused p m b self w :
  access_token self = None \/ realm_id self = None ->
  refused (_request qbo_request p m b) self w.
Proof.
  intros [H | H]; unfold refused, _request; rewrite H.
  - reflexivity.
  - destruct (access_token self); reflexivity.
Qed.

Lemma refused_bind {A B} (m : M A) (k : A -> M B) self (w : World) :
  refused m self w -> refused (bind m k) self w.
Proof. unfold refused, bind. intros H. rewrite H. reflexivity. Qed.

(** A request followed by pure steps only: exactly that request is sent. *)
Lemma request_then_pure {A} realm tok p m b (k : json -> Res A) w :
  requests (bind (_request qbo_request p m b) (fun r => lift (k r))
              (configured realm tok) w)
  = [request_of realm tok p m b].
Proof.
  unfold bind. rewrite _request_configured. simpl.
  destruct (fst (qbo_request _ w)); simpl; [rewrite lift_pure|]; reflexivity.
Qed.

End ClientFacts.

(* ===================================================================== *)
(** * The token check comes first                                         *)
(* ===================================================================== *)

(** C5. Before [set_token] (access token or realm id unset), every operation
    of the client fails with the "QBO token not set" exception before any
    request is handed to the transport, and leaves the client and the remote
    world as they were. *)
Theorem token_not_set_refuses_every_operation
    {World : Type} (qbo_request : Request -> World -> Res json * World)
    (self : QBO) (w : World) :
  access_token self = None \/ realm_id self = None ->
  (forall id, refused (get_tax_code qbo_request id) self w) /\
  (forall n, refused (get_customer_by_name qbo_request n) self w) /\
  (forall n c, refused (create_customer qbo_request n c) self w) /\
  (forall n c, refused (get_or_create_customer qbo_request n c) self w) /\
  (forall n, refused (get_item_by_name qbo_request n) self w) /\
  (forall n a, refused (create_item qbo_request n a) self w) /\
  (forall n a, refused (get_or_create_item qbo_request n a) self w) /\
  (forall n t, refused (create_account qbo_request n t) self w) /\
  (forall n, refused (get_account_id qbo_request n) self w) /\
  (forall n t, refused (get_or_create_account qbo_request n t) self w) /\
  (forall cid lines created cur note due txn tax num,
      refused (create_invoice qbo_request cid lines created cur note due txn tax num)
        self w) /\
  (forall inv cid amount date acct cur rate note,
      refused (create_invoice_payment qbo_request inv cid amount date acct cur rate note)
        self w) /\
  (forall amount date bank vendor expense note descr,
      refused (create_expense qbo_request amount date bank vendor expense note descr)
        self w) /\
  (forall amount date src dst note,
      refused (create_transfer qbo_request amount date src dst note) self w).
Proof.
  intros H.
  repeat split; intros;
    unfold get_tax_code, get_customer_by_name, create_customer, get_or_create_customer,
      get_item_by_name, create_item, get_or_create_item, create_account,
      get_account_id, get_or_create_account, create_invoice, create_invoice_payment,
      create_expense, create_transfer, get_customer_by_name, get_item_by_name,
      get_account_id, _query;
    repeat apply refused_bind; apply _request_refused; exact H.
Qed.

(** A client that never saw [set_token] is refused. *)
Lemma token_not_set_witness :
  refused (get_or_create_customer (canned (Ok JNull)) "Acme Corp" "USD") new_QBO tt.
Proof.
  destruct (token_not_set_refuses_every_operation (canned (Ok JNull)) new_QBO tt)
    as (_ & _ & _ & H & _).
  - left. reflexivity.
  - apply H.
Defined.

(* ===================================================================== *)
(** * Request bodies of the transactions                                  *)
(* ===================================================================== *)

Section Bodies.

Context {World : Type} (qbo_request : Request -> World -> Res json * World).
Variables (realm tok : string) (w : World).


(** C3, as the code has it. The invoice lines go into "Line" one for one
    and in order; each of DueDate, TxnTaxDetail, PrivateNote and DocNumber is
    a key of every request body, holding null when the argument is omitted. *)
Theorem create_invoice_optional_keys
    customer_id lines created_date currency private_note due_date txn_date
    tax_detail inv_number :
  exists b,
    requests (create_invoice qbo_request customer_id lines created_date currency
                private_note due_date txn_date tax_detail inv_number
                (configured realm tok) w)
    = [request_of realm tok "invoice" "POST" (Some (JObj b))] /\
    dict_get "Line" b = Some (JArr (map InvoiceLine_model_dump lines)) /\
    dict_get "DueDate" b =
      Some (match due_date with Some d => JStr (strftime_Ymd d) | None => JNull end) /\
    dict_get "TxnTaxDetail" b =
      Some (match tax_detail with Some t => TaxDetail_model_dump t | None => JNull end) /\
    dict_get "PrivateNote" b =
      Some (match private_note with Some n => JStr n | None => JNull end) /\
    dict_get "DocNumber" b =
      Some (match inv_number with Some n => JStr n | None => JNull end).
Proof.
  eexists. split; [apply request_then_pure|].
  unfold create_invoice_body.
  destruct due_date, created_date, private_note, inv_number; repeat split; reflexivity.
Qed.

(** C10. An exchange rate of 0.0 (of either sign) is not sent: ExchangeRate
    is the string "1", as it is when no rate is given. *)
Theorem create_invoice_payment_zero_rate
    invoice_id customer_id amount date qbo_account_id currency private_note
    (sign : bool) :
  (exists b,
      requests (create_invoice_payment qbo_request invoice_id customer_id amount date
                  qbo_account_id currency (Some (S754_zero sign)) private_note
                  (configured realm tok) w)
      = [request_of realm tok "/payment" "POST" (Some (JObj b))] /\
      dict_get "ExchangeRate" b = Some (JStr "1")) /\
  (exists b,
      requests (create_invoice_payment qbo_request invoice_id customer_id amount date
                  qbo_account_id currency None private_note
                  (configured realm tok) w)
      = [request_of realm tok "/payment" "POST" (Some (JObj b))] /\
      dict_get "ExchangeRate" b = Some (JStr "1")).
Proof.
  split; eexists; (split; [apply request_then_pure|]);
    unfold create_invoice_payment_body;
    destruct invoice_id as [[|c i]|]; reflexivity.
Qed.

(** C8, as the code has it. Without an exchange rate, ExchangeRate is the
    default, the string "1". Whatever the exchange rate, the body has a
    "Line" (one payment line linked to the invoice) when the invoice id is a
    non-empty string, and no "Line" when it is [None] or the empty string. *)
Theorem create_invoice_payment_default_rate_and_line
    customer_id amount date qbo_account_id currency private_note :
  (forall invoice_id, exists b,
      requests (create_invoice_payment qbo_request invoice_id customer_id amount
                  date qbo_account_id currency None private_note (configured realm tok) w)
      = [request_of realm tok "/payment" "POST" (Some (JObj b))] /\
      dict_get "ExchangeRate" b = Some (JStr "1")) /\
  (forall c i exchange_rate, exists b,
      requests (create_invoice_payment qbo_request (Some (String c i)) customer_id amount
                  date qbo_account_id currency exchange_rate private_note
                  (configured realm tok) w)
      = [request_of realm tok "/payment" "POST" (Some (JObj b))] /\
      dict_get "Line" b =
        Some (JArr [JObj [("Amount", JFloat amount);
                          ("LinkedTxn",
                            JArr [JObj [("TxnId", JStr (String c i));
                                        ("TxnType", JStr "Invoice")]])]])) /\
  (forall exchange_rate, exists b,
      requests (create_invoice_payment qbo_request None customer_id amount
                  date qbo_account_id currency exchange_rate private_note
                  (configured realm tok) w)
      = [request_of realm tok "/payment" "POST" (Some (JObj b))] /\
      dict_has "Line" b = false) /\
  (forall exchange_rate, exists b,
      requests (create_invoice_payment qbo_request (Some "") customer_id amount
                  date qbo_account_id currency exchange_rate private_note
                  (configured realm tok) w)
      = [request_of realm tok "/payment" "POST" (Some (JObj b))] /\
      dict_has "Line" b = false).
Proof.
  repeat split; intros; eexists; (split; [apply request_then_pure|]).
  - unfold create_invoice_payment_body.
    destruct invoice_id as [[|c i]|]; reflexivity.
  - reflexivity.
  - reflexivity.
  - reflexivity.
Qed.

End Bodies.

(* ===================================================================== *)
(** * Queries and lookups                                                 *)
(* ===================================================================== *)

Section Lookups.

Context {World : Type} (qbo_request : Request -> World -> Res json * World).
Variables (realm tok : string).

Lemma bind_run {A B} (m : M A) (k : A -> M B) self (w : World) a s1 w1 rqs :
  m self w = {| result := Ok a; self_after := s1; world_after := w1; requests := rqs |} ->
  bind m k self w =
    {| result := result (k a s1 w1); self_after := self_after (k a s1 w1);
       world_after := world_after (k a s1 w1);
       requests := rqs ++ requests (k a s1 w1) |}.
Proof. intros H. unfold bind. rewrite H. reflexivity. Qed.

Lemma bind_stop {A B} (m : M A) (k : A -> M B) self (w : World) e s1 w1 rqs :
  m self w = {| result := Raise e; self_after := s1; world_after := w1; requests := rqs |} ->
  bind m k self w =
    {| result := Raise e; self_after := s1; world_after := w1; requests := rqs |}.
Proof. intros H. unfold bind. rewrite H. reflexivity. Qed.

(** Rows can be read off a response only if it has the results envelope. *)
Lemma query_rows_envelope response entity rows :
  query_rows response entity = Ok rows ->
  contains "QueryResponse" response = Ok true.
Proof.
  unfold query_rows, subscript, contains, dict_has.
  destruct response; simpl; try discriminate.
  destruct (dict_get "QueryResponse" kvs); [reflexivity | discriminate].
Qed.

(** A query answered with the results envelope returns the response. *)
Lemma _query_answered q (w w1 : World) response :
  qbo_request (query_request realm tok q) w = (Ok response, w1) ->
  contains "QueryResponse" response = Ok true ->
  _query qbo_request q (configured realm tok) w =
    {| result := Ok response; self_after := configured realm tok;
       world_after := w1; requests := [query_request realm tok q] |}.
Proof.
  intros Hq Hc. unfold _query, bind. rewrite _request_configured.
  fold (query_request realm tok q). rewrite Hq. simpl. rewrite Hc. reflexivity.
Qed.

End Lookups.

(* ===================================================================== *)
(** * Accounts: conflict, single match, no match                          *)
(* ===================================================================== *)

Section Accounts.

Context {World : Type} (qbo_request : Request -> World -> Res json * World).
Variables (realm tok : string).

(** The lookup, once the service has answered the query with [accounts]. *)
Lemma get_account_id_run account_name (w w1 : World) response accounts :
  qbo_request (account_query realm tok account_name) w = (Ok response, w1) ->
  query_rows response "Account" = Ok (JArr accounts) ->
  get_account_id qbo_request account_name (configured realm tok) w =
    {| result := match accounts with
                 | [] => Ok JNull
                 | [a] => subscript a "Id"
                 | _ => Raise (conflict account_name)
                 end;
       self_after := configured realm tok; world_after := w1;
       requests := [account_query realm tok account_name] |}.
Proof.
  intros Hq Hrows. unfold get_account_id.
  rewrite (bind_run _ _ _ _ _ _ _ _
             (_query_answered qbo_request realm tok _ _ _ _ Hq
                (query_rows_envelope _ _ _ Hrows))).
  unfold bind. rewrite Hrows. simpl.
  destruct accounts as [|a [|a' rest]]; simpl.
  - reflexivity.
  - rewrite lift_pure. reflexivity.
  - reflexivity.
Qed.

(** C6. Once the account query is answered with the list [accounts]:
    more than one match makes [get_account_id] and [get_or_create_account]
    fail with the "Multiple accounts found" exception, the query being the
    only request sent; exactly one match makes [get_account_id] return that
    account's "Id"; no match makes [get_or_create_account] send the create
    request and end as [create_account] does. *)
Theorem get_account_id_conflict_single_none
    account_name account_type (w w1 : World) response accounts :
  qbo_request (account_query realm tok account_name) w = (Ok response, w1) ->
  query_rows response "Account" = Ok (JArr accounts) ->
  (1 < length accounts ->
     result (get_account_id qbo_request account_name (configured realm tok) w)
     = Raise (conflict account_name) /\
     get_or_create_account qbo_request account_name account_type (configured realm tok) w
     = {| result := Raise (conflict account_name);
          self_after := configured realm tok; world_after := w1;
          requests := [account_query realm tok account_name] |}) /\
  (forall a, accounts = [a] ->
     result (get_account_id qbo_request account_name (configured realm tok) w)
     = subscript a "Id") /\
  (accounts = [] ->
     let o := get_or_create_account qbo_request account_name account_type
                (configured realm tok) w in
     let c := create_account qbo_request account_name account_type
                (configured realm tok) w1 in
     result o = result c /\ world_after o = world_after c /\
     requests o =
       [account_query realm tok account_name;
        request_of realm tok "/account" "POST"
          (Some (create_account_body account_name account_type))]).
Proof.
  intros Hq Hrows.
  pose proof (get_account_id_run account_name w w1 response accounts Hq Hrows) as Hrun.
  split; [|split].
  - intros Hmany.
    assert (Hres : match accounts with
                   | [] => Ok JNull
                   | [a] => subscript a "Id"
                   | _ => Raise (conflict account_name)
                   end = Raise (conflict account_name)).
    { destruct accounts as [|a [|a' rest]]; simpl in Hmany; try lia. reflexivity. }
    rewrite Hres in Hrun. split.
    + rewrite Hrun. reflexivity.
    + unfold get_or_create_account. apply bind_stop. exact Hrun.
  - intros a ->. rewrite Hrun. reflexivity.
  - intros ->. unfold get_or_create_account.
    rewrite (bind_run _ _ _ _ _ _ _ _ Hrun). simpl.
    repeat split.
    unfold create_account. rewrite request_then_pure. reflexivity.
Qed.

End Accounts.

(** Two accounts named "Stripe Fees": the conflict, and no create request. *)
Lemma get_account_id_conflict_witness :
  get_or_create_account
    (canned (Ok (JObj [("QueryResponse", JObj [("Account", JArr two_accounts)])])))
    "Stripe Fees" "Expense" (configured "4620816365" "token") tt
  = {| result := Raise (conflict "Stripe Fees");
       self_after := configured "4620816365" "token"; world_after := tt;
       requests := [account_query "4620816365" "token" "Stripe Fees"] |}.
Proof.
  destruct (get_account_id_conflict_single_none
              (canned (Ok (JObj [("QueryResponse", JObj [("Account", JArr two_accounts)])])))
              "4620816365" "token" "Stripe Fees" "Expense" tt tt
              (JObj [("QueryResponse", JObj [("Account", JArr two_accounts)])])
              two_accounts eq_refl eq_refl) as [Hmany _].
  apply Hmany. simpl. lia.
Defined.

(* ===================================================================== *)
(** * Create calls and the entity envelope                                *)
(* ===================================================================== *)

Section Envelope.

Context {World : Type} (qbo_request : Request -> World -> Res json * World).
Variables (realm tok : string).

(** [create_customer] checks for its envelope key and, when it is missing,
    raises an exception that quotes the response. *)
Lemma create_customer_missing_envelope name currency (w : World) response :
  fst (qbo_request
         (request_of realm tok "customer" "POST"
            (Some (create_customer_body name currency))) w) = Ok response ->
  contains "Customer" response = Ok false ->
  result (create_customer qbo_request name currency (configured realm tok) w)
  = Raise (Exception [Lit "Error creating customer: "; Interp response]).
Proof.
  intros Hr Hc. unfold create_customer, bind. rewrite _request_configured. simpl.
  rewrite Hr. rewrite lift_pure. simpl. rewrite Hc. reflexivity.
Qed.

(** A request whose answer is read with [response.json()[key]["Id"]]. *)
Lemma subscripted_create {A} p b key (k : json -> Res A) (w : World) kvs :
  fst (qbo_request (request_of realm tok p "POST" b) w) = Ok (JObj kvs) ->
  dict_has key kvs = false ->
  (forall r, subscript r key = Raise (KeyError (JStr key)) ->
             k r = Raise (KeyError (JStr key))) ->
  result (bind (_request qbo_request p "POST" b) (fun r => lift (k r))
            (configured realm tok) w)
  = Raise (KeyError (JStr key)).
Proof.
  intros Hr Hk Hsub. unfold bind. rewrite _request_configured. simpl.
  rewrite Hr. rewrite lift_pure. simpl. apply Hsub.
  unfold subscript. unfold dict_has in Hk.
  destruct (dict_get key kvs); [discriminate | reflexivity].
Qed.

(** C4, what the code does. When the service answers with an object that
    lacks the envelope key, [create_customer] raises an exception that
    quotes the response, while the six other create operations let the
    [KeyError] of the missing key escape, which carries the key alone. *)
Theorem create_without_envelope_key
    (w : World) kvs
    name currency item_name account_id account_name account_type
    customer_id lines created_date inv_currency note due_date txn_date tax_detail
    inv_number invoice_id amount date qbo_account_id rate private_note
    bank_account_id vendor_id expense_account_id description
    source_account_id destination_account_id :
  (forall rq, fst (qbo_request rq w) = Ok (JObj kvs)) ->
  (dict_has "Customer" kvs = false ->
     exists msg,
       result (create_customer qbo_request name currency (configured realm tok) w)
       = Raise (Exception msg) /\ mentions msg (JObj kvs)) /\
  (dict_has "Item" kvs = false ->
     result (create_item qbo_request item_name account_id (configured realm tok) w)
     = Raise (KeyError (JStr "Item"))) /\
  (dict_has "Account" kvs = false ->
     result (create_account qbo_request account_name account_type (configured realm tok) w)
     = Raise (KeyError (JStr "Account"))) /\
  (dict_has "Invoice" kvs = false ->
     result (create_invoice qbo_request customer_id lines created_date inv_currency note
               due_date txn_date tax_detail inv_number (configured realm tok) w)
     = Raise (KeyError (JStr "Invoice"))) /\
  (dict_has "Payment" kvs = false ->
     result (create_invoice_payment qbo_request invoice_id customer_id amount date
               qbo_account_id currency rate private_note (configured realm tok) w)
     = Raise (KeyError (JStr "Payment"))) /\
  (dict_has "Purchase" kvs = false ->
     result (create_expense qbo_request amount date bank_account_id vendor_id
               expense_account_id private_note description (configured realm tok) w)
     = Raise (KeyError (JStr "Purchase"))) /\
  (dict_has "Transfer" kvs = false ->
     result (create_transfer qbo_request amount date source_account_id
               destination_account_id private_note (configured realm tok) w)
     = Raise (KeyError (JStr "Transfer"))).
Proof.
  intros Hall.
  split.
  { intros Hk. eexists. split.
    - apply create_customer_missing_envelope; [apply Hall|].
      simpl. rewrite Hk. reflexivity.
    - right. left. reflexivity. }
  repeat split; intros Hk.
  - unfold create_item, bind. rewrite _request_configured. simpl.
    rewrite Hall. rewrite lift_pure. simpl. unfold dict_has in Hk.
    destruct (dict_get "Item" kvs); [discriminate | reflexivity].
  - apply subscripted_create with (kvs := kvs); auto.
    intros r ->. reflexivity.
  - apply subscripted_create with (kvs := kvs); auto.
    intros r ->. reflexivity.
  - apply subscripted_create with (kvs := kvs); auto.
    intros r ->. reflexivity.
  - apply subscripted_create with (kvs := kvs); auto.
    intros r ->. reflexivity.
  - apply subscripted_create with (kvs := kvs); auto.
    intros r ->. reflexivity.
Qed.

End Envelope.

(** A "Fault" answer: [create_customer] quotes it, [create_item] loses it. *)
Lemma create_without_envelope_key_witness :
  (exists msg,
      result (create_customer (canned (Ok (JObj fault_fields))) "Acme Corp" "USD"
                (configured "4620816365" "token") tt)
      = Raise (Exception msg) /\ mentions msg (JObj fault_fields)) /\
  result (create_item (canned (Ok (JObj fault_fields))) "Consulting" "79"
            (configured "4620816365" "token") tt)
  = Raise (KeyError (JStr "Item")).
Proof.
  destruct (create_without_envelope_key (canned (Ok (JObj fault_fields)))
              "4620816365" "token" tt fault_fields
              "Acme Corp" "USD" "Consulting" "79" "Stripe Fees" "Expense"
              "58" [] None (Some "USD") None None None None None
              None sample_amount sample_date "35" None ""
              "35" "56" "7" None "35" "36" (fun _ => eq_refl))
    as (Hcustomer & Hitem & _).
  split; [apply Hcustomer | apply Hitem]; reflexivity.
Defined.

Example strftime_drops_time : strftime_Ymd sample_date = "2023-07-04".
Proof. reflexivity. Qed.

Lemma length_append (s1 s2 : string) :
  String.length (s1 ++ s2) = String.length s1 + String.length s2.
Proof.
  induction s1 as [|c s1 IH]; [reflexivity|].
  change (String c s1 ++ s2)%string with (String c (s1 ++ s2)%string).
  simpl. rewrite IH. reflexivity.
Qed.

Lemma length_zeros n : String.length (zeros n) = n.
Proof. induction n as [|n IH]; simpl; [reflexivity | rewrite IH; reflexivity]. Qed.

(** Padding gives exactly [width] characters to a number of at most
    [width] digits. *)
Lemma length_zero_padded width n :
  String.length (decimal n) <= width -> String.length (zero_padded width n) = width.
Proof.
  intros H. unfold zero_padded. rewrite length_append, length_zeros. lia.
Qed.

(** ** the text [strftime] writes *)















(** A concrete invoice call with every optional argument omitted: the four
    optional keys are sent, each holding null. *)
Lemma create_invoice_sends_null_placeholders :
  requests (create_invoice (canned (Ok (JObj [("Invoice", JObj [("Id", JStr "130")])])))
              "58" [] (Some sample_date) (Some "USD") None None None None None
              (configured "4620816365" "token") tt)
  = [request_of "4620816365" "token" "invoice" "POST"
       (Some (JObj [("CustomerRef", JObj [("value", JStr "58")]);
                    ("CurrencyRef", JObj [("value", JStr "USD")]);
                    ("Line", JArr []);
                    ("TxnDate", JStr "2023-07-04");
                    ("DueDate", JNull);
                    ("TxnTaxDetail", JNull);
                    ("PrivateNote", JNull);
                    ("DocNumber", JNull)]))].
Proof. reflexivity. Qed.

(** A concrete payment call given the empty string as invoice id: an invoice
    id is supplied, yet the body has no "Line". *)
Lemma create_invoice_payment_empty_invoice_id :
  requests (create_invoice_payment (canned (Ok (JObj [("Payment", JObj [("Id", JStr "131")])])))
              (Some "") "58" sample_amount sample_date "35" "USD" None ""
              (configured "4620816365" "token") tt)
  = [request_of "4620816365" "token" "/payment" "POST"
       (Some (JObj [("TotalAmt", JFloat sample_amount);
                    ("CustomerRef", JObj [("value", JStr "58")]);
                    ("TxnDate", JStr "2023-07-04");
                    ("DepositToAccountRef", JObj [("value", JStr "35")]);
                    ("PrivateNote", JStr "");
                    ("CurrencyRef", JObj [("value", JStr "USD")]);
                    ("ExchangeRate", JStr "1")]))].
Proof. reflexivity. Qed.

(* ===================================================================== *)
(** * Customers: an existing name is reused whatever its currency         *)
(* ===================================================================== *)

Section Customers.

Context {World : Type} (qbo_request : Request -> World -> Res json * World).
Variables (realm tok : string).

(** The lookup, once the service has answered the query with [customers]. *)
Lemma get_customer_by_name_run customer_name (w w1 : World) response customers :
  qbo_request (customer_query realm tok customer_name) w = (Ok response, w1) ->
  query_rows response "Customer" = Ok (JArr customers) ->
  get_customer_by_name qbo_request customer_name (configured realm tok) w =
    {| result := Ok (match customers with
                     | [] => JNull
                     | first :: _ => first
                     end);
       self_after := configured realm tok; world_after := w1;
       requests := [customer_query realm tok customer_name] |}.
Proof.
  intros Hq Hrows. unfold get_customer_by_name.
  rewrite (bind_run _ _ _ _ _ _ _ _
             (_query_answered qbo_request realm tok _ _ _ _ Hq
                (query_rows_envelope _ _ _ Hrows))).
  unfold bind. rewrite Hrows. simpl.
  destruct customers as [|first rest]; reflexivity.
Qed.

(** C1, what the code does. When the lookup by name finds a customer, that
    customer is handed back as found, for every requested currency, and the
    query is the only request sent: nothing is created. *)
Theorem get_or_create_customer_reuses_existing
    customer_name currency (w w1 : World) response existing others :
  qbo_request (customer_query realm tok customer_name) w = (Ok response, w1) ->
  query_rows response "Customer" = Ok (JArr (existing :: others)) ->
  is_None existing = false ->
  get_or_create_customer qbo_request customer_name currency (configured realm tok) w =
    {| result := Ok (Parsed existing);
       self_after := configured realm tok; world_after := w1;
       requests := [customer_query realm tok customer_name] |}.
Proof.
  intros Hq Hrows Hsome. unfold get_or_create_customer.
  rewrite (bind_run _ _ _ _ _ _ _ _
             (get_customer_by_name_run _ _ _ _ _ Hq Hrows)).
  rewrite Hsome. reflexivity.
Qed.

End Customers.

(** "Acme Corp" exists in USD and is asked for in EUR: the USD customer comes
    back and the service is left as it was. *)
Lemma get_or_create_customer_reuses_existing_witness :
  get_or_create_customer MemQBO.qbo_request "Acme Corp" "EUR"
    (configured "4620816365" "token") acme_world
  = {| result := Ok (Parsed (MemQBO.customer_json acme_usd));
       self_after := configured "4620816365" "token"; world_after := acme_world;
       requests := [customer_query "4620816365" "token" "Acme Corp"] |}.
Proof.
  apply (get_or_create_customer_reuses_existing MemQBO.qbo_request
           "4620816365" "token" "Acme Corp" "EUR" acme_world acme_world
           (JObj [("QueryResponse",
                   JObj [("Customer", JArr [MemQBO.customer_json acme_usd])])])
           (MemQBO.customer_json acme_usd) []);
    reflexivity.
Defined.

(* ===================================================================== *)
(** * The settings file                                                   *)
(* ===================================================================== *)

Import Settings.

Example alias_of_stripe_vendor_id : _snake_to_camel "stripe_vendor_id" = "stripeVendorId".
Proof. reflexivity. Qed.

(** A concrete [save]: the file has the key "stripe_vendor_id" and no key
    "stripeVendorId". *)
Lemma save_does_not_write_camel_case :
  exists kvs,
    save sample_settings "settings.json" ∅ !! "settings.json" = Some (JObj kvs) /\
    dict_has (_snake_to_camel "stripe_vendor_id") kvs = false /\
    dict_get "stripe_vendor_id" kvs = Some (JStr "56").
Proof.
  eexists. unfold save. rewrite lookup_insert_eq. repeat split.
Qed.

(** C9, as the code has it. [save] writes one flat object whose keys are the
    field names as declared (snake case), each with its identifier, null for
    an unset [default_income_account_id]; loading the saved file gives the
    settings back; and [load_from_file] returns [None] for an absent file. *)
Theorem save_writes_field_names (settings : Settings) (path other : string) (fs : files) :
  save settings path fs !! path =
    Some (JObj [("stripe_clearing_account_id", JStr (stripe_clearing_account_id settings));
                ("stripe_payout_account_id", JStr (stripe_payout_account_id settings));
                ("stripe_fee_account_id", JStr (stripe_fee_account_id settings));
                ("stripe_vendor_id", JStr (stripe_vendor_id settings));
                ("default_income_account_id",
                  match default_income_account_id settings with
                  | Some i => JStr i
                  | None => JNull
                  end);
                ("default_tax_code_id", JStr (default_tax_code_id settings));
                ("exempt_tax_code_id", JStr (exempt_tax_code_id settings))]) /\
  load_from_file path (save settings path fs) = Ok (Some settings) /\
  (fs !! other = None -> load_from_file other fs = Ok None).
Proof.
  split; [|split].
  - unfold save. rewrite lookup_insert_eq. reflexivity.
  - unfold load_from_file, save. rewrite lookup_insert_eq.
    destruct settings as [a b c d [e|] f g]; reflexivity.
  - intros Habsent. unfold load_from_file. rewrite Habsent. reflexivity.
Qed.

(** No file, no settings; a saved file loads back. *)
Lemma save_writes_field_names_witness :
  load_from_file "settings.json" ∅ = Ok None /\
  load_from_file "settings.json" (save sample_settings "settings.json" ∅)
  = Ok (Some sample_settings).
Proof.
  destruct (save_writes_field_names sample_settings "settings.json" "settings.json" ∅)
    as (_ & Hround & Habsent).
  split; [apply Habsent, lookup_empty | exact Hround].
Defined.

(** The camel-cased aliases are what [Settings] accepts on input, next to the
    field names. *)
Lemma load_accepts_camel_case (fs : files) :
  load_from_file "settings.json"
    (<["settings.json" :=
         JObj [("stripeClearingAccountId", JStr "91");
               ("stripePayoutAccountId", JStr "35");
               ("stripeFeeAccountId", JStr "92");
               ("stripeVendorId", JStr "56");
               ("defaultTaxCodeId", JStr "TAX");
               ("exemptTaxCodeId", JStr "NON")]]> fs)
  = Ok (Some sample_settings).
Proof.
  unfold load_from_file. rewrite lookup_insert_eq. reflexivity.
Qed.

(* ===================================================================== *)
(** * Get-or-create, called twice                                         *)
(* ===================================================================== *)

Section Footprints.

Context {World : Type} (qbo_request : Request -> World -> Res json * World).
Variables (realm tok : string).

Lemma pure_ret {A} (a : A) : pure_step (ret a : @M World A).
Proof. intros s w. reflexivity. Qed.

Lemma pure_raise {A} e : pure_step (raise e : @M World A).
Proof. intros s w. reflexivity. Qed.

Lemma pure_lift {A} (r : Res A) : pure_step (lift r : @M World A).
Proof. destruct r; [apply pure_ret | apply pure_raise]. Qed.

Lemma pure_bind {A B} (m : @M World A) (k : A -> M B) :
  pure_step m -> (forall a, pure_step (k a)) -> pure_step (bind m k).
Proof.
  intros Hm Hk s w. unfold bind. rewrite (Hm s w). simpl.
  destruct (result (m s w)); [|reflexivity].
  rewrite (Hk a s w). reflexivity.
Qed.

Lemma sends_only_request p m b :
  sends_only qbo_request realm tok (request_of realm tok p m b)
    (_request qbo_request p m b).
Proof. intros w. rewrite _request_configured. simpl. tauto. Qed.

Lemma sends_only_bind {A B} rq (m : M A) (k : A -> M B) :
  sends_only qbo_request realm tok rq m -> (forall a, pure_step (k a)) ->
  sends_only qbo_request realm tok rq (bind m k).
Proof.
  intros Hm Hk w. destruct (Hm w) as (Hs & Hw & Hr). unfold bind.
  destruct (result (m (configured realm tok) w)); simpl; [|tauto].
  rewrite (Hk a). simpl. rewrite Hr. simpl. tauto.
Qed.

End Footprints.

Ltac pure_steps :=
  repeat first
    [ apply pure_lift | apply pure_ret | apply pure_raise
    | apply pure_bind; [|intros]
    | match goal with
      | |- pure_step (if ?b then _ else _) => destruct b
      end ].

Section FootprintsOfTheClient.

Context {World : Type} (qbo_request : Request -> World -> Res json * World).
Variables (realm tok : string).

Lemma sends_only_query q :
  sends_only qbo_request realm tok (query_request realm tok q) (_query qbo_request q).
Proof.
  unfold _query. apply sends_only_bind; [apply sends_only_request|].
  intros; pure_steps.
Qed.

Lemma sends_only_get_customer_by_name name :
  sends_only qbo_request realm tok (customer_query realm tok name)
    (get_customer_by_name qbo_request name).
Proof.
  unfold get_customer_by_name. apply sends_only_bind; [apply sends_only_query|].
  intros; pure_steps.
Qed.

Lemma sends_only_create_customer name currency :
  sends_only qbo_request realm tok (create_customer_request realm tok name currency)
    (create_customer qbo_request name currency).
Proof.
  unfold create_customer. apply sends_only_bind; [apply sends_only_request|].
  intros; pure_steps.
Qed.

Lemma sends_only_get_item_by_name name :
  sends_only qbo_request realm tok (item_query realm tok name) (get_item_by_name qbo_request name).
Proof.
  unfold get_item_by_name. apply sends_only_bind; [apply sends_only_query|].
  intros; pure_steps.
Qed.

Lemma sends_only_create_item name account :
  sends_only qbo_request realm tok (create_item_request realm tok name account)
    (create_item qbo_request name account).
Proof.
  unfold create_item. apply sends_only_bind; [apply sends_only_request|].
  intros; pure_steps.
Qed.

Lemma sends_only_get_account_id name :
  sends_only qbo_request realm tok (account_query realm tok name)
    (get_account_id qbo_request name).
Proof.
  unfold get_account_id. apply sends_only_bind; [apply sends_only_query|].
  intros; pure_steps.
Qed.

Lemma sends_only_create_account name type :
  sends_only qbo_request realm tok (create_account_request realm tok name type)
    (create_account qbo_request name type).
Proof.
  unfold create_account. apply sends_only_bind; [apply sends_only_request|].
  intros; pure_steps.
Qed.

End FootprintsOfTheClient.

Section Idempotence.

Context {World : Type} (qbo_request : Request -> World -> Res json * World).
Variables (realm tok : string).
Hypothesis contract : service_contract qbo_request.

Lemma get_customer_by_name_keeps_world name (w : World) :
  world_after (get_customer_by_name qbo_request name (configured realm tok) w) = w.
Proof.
  destruct (sends_only_get_customer_by_name qbo_request realm tok name w) as (_ & Hw & _).
  rewrite Hw. apply (reads_leave_world _ contract). reflexivity.
Qed.

Lemma get_item_by_name_keeps_world name (w : World) :
  world_after (get_item_by_name qbo_request name (configured realm tok) w) = w.
Proof.
  destruct (sends_only_get_item_by_name qbo_request realm tok name w) as (_ & Hw & _).
  rewrite Hw. apply (reads_leave_world _ contract). reflexivity.
Qed.

Lemma get_account_id_keeps_world name (w : World) :
  world_after (get_account_id qbo_request name (configured realm tok) w) = w.
Proof.
  destruct (sends_only_get_account_id qbo_request realm tok name w) as (_ & Hw & _).
  rewrite Hw. apply (reads_leave_world _ contract). reflexivity.
Qed.

(** The branch taken when the lookup finds a customer. *)
Lemma get_or_create_customer_found name currency (w : World) j :
  result (get_customer_by_name qbo_request name (configured realm tok) w) = Ok j ->
  is_None j = false ->
  get_or_create_customer qbo_request name currency (configured realm tok) w =
    {| result := Ok (Parsed j); self_after := configured realm tok; world_after := w;
       requests := [customer_query realm tok name] |}.
Proof.
  intros Hl Hj.
  destruct (sends_only_get_customer_by_name qbo_request realm tok name w) as (Hs & _ & Hr).
  pose proof (get_customer_by_name_keeps_world name w) as Hw.
  unfold get_or_create_customer. rewrite (bind_Ok _ _ _ _ _ Hl). cbv zeta.
  rewrite Hj, Hs, Hw, Hr. reflexivity.
Qed.

(** The branch taken when the lookup finds nothing and the customer comes
    back in the requested currency. *)
Lemma get_or_create_customer_created name currency (w : World) c :
  result (get_customer_by_name qbo_request name (configured realm tok) w) = Ok JNull ->
  result (create_customer qbo_request name currency (configured realm tok) w) = Ok c ->
  String.eqb (CurrencyRef_value (Customer_CurrencyRef c)) currency = true ->
  get_or_create_customer qbo_request name currency (configured realm tok) w =
    {| result := Ok (Built c); self_after := configured realm tok;
       world_after := world_after (create_customer qbo_request name currency
                                     (configured realm tok) w);
       requests := [customer_query realm tok name;
                    create_customer_request realm tok name currency] |}.
Proof.
  intros Hl Hc Hcur.
  destruct (sends_only_get_customer_by_name qbo_request realm tok name w) as (Hs & _ & Hr).
  pose proof (get_customer_by_name_keeps_world name w) as Hw.
  destruct (sends_only_create_customer qbo_request realm tok name currency w)
    as (Hs' & _ & Hr').
  unfold get_or_create_customer. rewrite (bind_Ok _ _ _ _ _ Hl). cbv zeta.
  rewrite Hs, Hw, Hr. simpl.
  rewrite (bind_Ok _ _ _ _ _ Hc). cbv zeta. rewrite Hcur, Hs', Hr'. reflexivity.
Qed.

(** The currency-mismatch branch asks for the disambiguated customer. *)
Lemma get_or_create_customer_mismatch name currency (w : World) c :
  result (get_customer_by_name qbo_request name (configured realm tok) w) = Ok JNull ->
  result (create_customer qbo_request name currency (configured realm tok) w) = Ok c ->
  String.eqb (CurrencyRef_value (Customer_CurrencyRef c)) currency = false ->
  mismatch_requested name currency
    (requests (get_or_create_customer qbo_request name currency (configured realm tok) w))
  = true.
Proof.
  intros Hl Hc Hcur.
  destruct (sends_only_get_customer_by_name qbo_request realm tok name w) as (Hs & _ & Hr).
  pose proof (get_customer_by_name_keeps_world name w) as Hw.
  destruct (sends_only_create_customer qbo_request realm tok name currency w)
    as (Hs' & _ & Hr').
  unfold get_or_create_customer. rewrite (bind_Ok _ _ _ _ _ Hl). cbv zeta.
  rewrite Hs, Hw, Hr. simpl.
  rewrite (bind_Ok _ _ _ _ _ Hc). cbv zeta. rewrite Hcur, Hs', Hr'. simpl.
  assert (Hsent :
    requests (bind (create_customer qbo_request (name ++ " (" ++ currency ++ ")") currency)
                (fun created => ret (Built created)) (configured realm tok)
                (world_after (create_customer qbo_request name currency
                                (configured realm tok) w)))
    = [create_customer_request realm tok (name ++ " (" ++ currency ++ ")") currency]).
  { refine (proj2 (proj2 (sends_only_bind qbo_request realm tok _ _ _
                              (sends_only_create_customer qbo_request realm tok _ _)
                              (fun created => pure_ret (Built created)) _))). }
  rewrite Hsent. simpl. rewrite String.eqb_refl.
  repeat rewrite orb_true_r. reflexivity.
Qed.

Lemma subscript_not_None j key v : subscript j key = Ok v -> is_None j = false.
Proof. destruct j; simpl; intros H; try discriminate; reflexivity. Qed.

Lemma is_None_JNull j : is_None j = true -> j = JNull.
Proof. destruct j; simpl; intros H; try discriminate; reflexivity. Qed.

(** Customers, called twice. *)
Lemma get_or_create_customer_twice name currency (w : World) c1 :
  let o1 := get_or_create_customer qbo_request name currency (configured realm tok) w in
  let o2 := get_or_create_customer qbo_request name currency (configured realm tok)
              (world_after o1) in
  result o1 = Ok c1 ->
  mismatch_requested name currency (requests o1) = false ->
  exists c2,
    result o2 = Ok c2 /\ customer_id c2 = customer_id c1 /\
    posts (requests o1) <= 1 /\ posts (requests o2) = 0 /\
    world_after o2 = world_after o1.
Proof.
  cbv zeta. intros Hres Hnomis.
  destruct (result (get_customer_by_name qbo_request name (configured realm tok) w))
    as [j|e] eqn:Hl.
  2:{ unfold get_or_create_customer in Hres.
      rewrite (bind_Raise _ _ _ _ _ Hl) in Hres. discriminate. }
  destruct (is_None j) eqn:Hj.
  - apply is_None_JNull in Hj. subst j.
    destruct (result (create_customer qbo_request name currency (configured realm tok) w))
      as [c|e] eqn:Hc.
    2:{ exfalso.
        destruct (sends_only_get_customer_by_name qbo_request realm tok name w)
          as (Hs & _ & _).
        pose proof (get_customer_by_name_keeps_world name w) as Hw.
        unfold get_or_create_customer in Hres.
        rewrite (bind_Ok _ _ _ _ _ Hl) in Hres. cbv zeta in Hres.
        rewrite Hs, Hw in Hres. simpl in Hres.
        rewrite (bind_Raise _ _ _ _ _ Hc) in Hres. discriminate. }
    destruct (String.eqb (CurrencyRef_value (Customer_CurrencyRef c)) currency) eqn:Hcur.
    + rewrite (get_or_create_customer_created name currency w c Hl Hc Hcur) in *.
      simpl in *. injection Hres as <-.
      destruct (created_customer_is_found _ contract realm tok name currency w c Hl Hc)
        as (j' & Hl' & Hid).
      rewrite (get_or_create_customer_found name currency _ j' Hl'
                 (subscript_not_None _ _ _ Hid)).
      exists (Parsed j'). simpl. repeat split.
      * exact Hid.
      * unfold posts. simpl. lia.
    + rewrite (get_or_create_customer_mismatch name currency w c Hl Hc Hcur) in Hnomis.
      discriminate.
  - rewrite (get_or_create_customer_found name currency w j Hl Hj) in *.
    simpl in *. injection Hres as <-.
    rewrite (get_or_create_customer_found name currency w j Hl Hj).
    exists (Parsed j). simpl. repeat split. unfold posts. simpl. lia.
Qed.

(** ** items *)

Lemma get_or_create_item_found name account (w : World) i :
  result (get_item_by_name qbo_request name (configured realm tok) w) = Ok (Some i) ->
  get_or_create_item qbo_request name account (configured realm tok) w =
    {| result := Ok i; self_after := configured realm tok; world_after := w;
       requests := [item_query realm tok name] |}.
Proof.
  intros Hl.
  destruct (sends_only_get_item_by_name qbo_request realm tok name w) as (Hs & _ & Hr).
  pose proof (get_item_by_name_keeps_world name w) as Hw.
  unfold get_or_create_item. rewrite (bind_Ok _ _ _ _ _ Hl). cbv zeta.
  rewrite Hs, Hw, Hr. reflexivity.
Qed.

Lemma get_or_create_item_absent name account (w : World) :
  result (get_item_by_name qbo_request name (configured realm tok) w) = Ok None ->
  get_or_create_item qbo_request name account (configured realm tok) w =
    {| result := result (create_item qbo_request name account (configured realm tok) w);
       self_after := configured realm tok;
       world_after := world_after (create_item qbo_request name account
                                     (configured realm tok) w);
       requests := [item_query realm tok name;
                    create_item_request realm tok name account] |}.
Proof.
  intros Hl.
  destruct (sends_only_get_item_by_name qbo_request realm tok name w) as (Hs & _ & Hr).
  pose proof (get_item_by_name_keeps_world name w) as Hw.
  destruct (sends_only_create_item qbo_request realm tok name account w)
    as (Hs' & _ & Hr').
  unfold get_or_create_item. rewrite (bind_Ok _ _ _ _ _ Hl). cbv zeta.
  rewrite Hs, Hw, Hr, Hs', Hr'. reflexivity.
Qed.

Lemma get_or_create_item_twice name account (w : World) i1 :
  let o1 := get_or_create_item qbo_request name account (configured realm tok) w in
  let o2 := get_or_create_item qbo_request name account (configured realm tok)
              (world_after o1) in
  result o1 = Ok i1 ->
  exists i2,
    result o2 = Ok i2 /\ ItemRef_value i2 = ItemRef_value i1 /\
    posts (requests o1) <= 1 /\ posts (requests o2) = 0 /\
    world_after o2 = world_after o1.
Proof.
  cbv zeta. intros Hres.
  destruct (result (get_item_by_name qbo_request name (configured realm tok) w))
    as [[i|]|e] eqn:Hl.
  - rewrite (get_or_create_item_found name account w i Hl) in *.
    simpl in *. injection Hres as <-.
    rewrite (get_or_create_item_found name account w i Hl).
    exists i. simpl. repeat split. unfold posts. simpl. lia.
  - rewrite (get_or_create_item_absent name account w Hl) in *. simpl in *.
    destruct (created_item_is_found _ contract realm tok name account w i1 Hl Hres)
      as (i' & Hl' & Hid).
    rewrite (get_or_create_item_found name account _ i' Hl').
    exists i'. simpl. repeat split.
    + exact Hid.
    + unfold posts. simpl. lia.
  - unfold get_or_create_item in Hres.
    rewrite (bind_Raise _ _ _ _ _ Hl) in Hres. discriminate.
Qed.

(** ** accounts *)

Lemma get_or_create_account_found name type (w : World) id :
  result (get_account_id qbo_request name (configured realm tok) w) = Ok id ->
  is_None id = false ->
  get_or_create_account qbo_request name type (configured realm tok) w =
    {| result := Ok id; self_after := configured realm tok; world_after := w;
       requests := [account_query realm tok name] |}.
Proof.
  intros Hl Hid.
  destruct (sends_only_get_account_id qbo_request realm tok name w) as (Hs & _ & Hr).
  pose proof (get_account_id_keeps_world name w) as Hw.
  unfold get_or_create_account. rewrite (bind_Ok _ _ _ _ _ Hl). cbv zeta.
  rewrite Hid, Hs, Hw, Hr. reflexivity.
Qed.

Lemma get_or_create_account_absent name type (w : World) :
  result (get_account_id qbo_request name (configured realm tok) w) = Ok JNull ->
  get_or_create_account qbo_request name type (configured realm tok) w =
    {| result := result (create_account qbo_request name type (configured realm tok) w);
       self_after := configured realm tok;
       world_after := world_after (create_account qbo_request name type
                                     (configured realm tok) w);
       requests := [account_query realm tok name;
                    create_account_request realm tok name type] |}.
Proof.
  intros Hl.
  destruct (sends_only_get_account_id qbo_request realm tok name w) as (Hs & _ & Hr).
  pose proof (get_account_id_keeps_world name w) as Hw.
  destruct (sends_only_create_account qbo_request realm tok name type w)
    as (Hs' & _ & Hr').
  unfold get_or_create_account. rewrite (bind_Ok _ _ _ _ _ Hl). cbv zeta.
  rewrite Hs, Hw, Hr. simpl. rewrite Hs', Hr'. reflexivity.
Qed.

Lemma get_or_create_account_twice name type (w : World) id :
  let o1 := get_or_create_account qbo_request name type (configured realm tok) w in
  let o2 := get_or_create_account qbo_request name type (configured realm tok)
              (world_after o1) in
  result o1 = Ok id ->
  is_None id = false ->
  result o2 = Ok id /\
  posts (requests o1) <= 1 /\ posts (requests o2) = 0 /\
  world_after o2 = world_after o1.
Proof.
  cbv zeta. intros Hres Hid.
  destruct (result (get_account_id qbo_request name (configured realm tok) w))
    as [j|e] eqn:Hl.
  2:{ unfold get_or_create_account in Hres.
      rewrite (bind_Raise _ _ _ _ _ Hl) in Hres. discriminate. }
  destruct (is_None j) eqn:Hj.
  - apply is_None_JNull in Hj. subst j.
    rewrite (get_or_create_account_absent name type w Hl) in *. simpl in *.
    pose proof (created_account_is_found _ contract realm tok name type w id Hl Hres Hid)
      as Hl'.
    rewrite (get_or_create_account_found name type _ id Hl' Hid).
    simpl. repeat split. unfold posts. simpl. lia.
  - rewrite (get_or_create_account_found name type w j Hl Hj) in *.
    simpl in *. injection Hres as <-.
    rewrite (get_or_create_account_found name type w j Hl Hj).
    simpl. repeat split. unfold posts. simpl. lia.
Qed.

(** C2. Against a service that keeps its contract, a get-or-create that
    returned an entity returns, when called again with the same arguments,
    an entity with the same id; the first call sends at most one create
    request, the second none and leaves the service as it is. For customers
    this is for a first call that did not take the currency-mismatch branch. *)
Theorem get_or_create_twice (w : World) :
  (forall name currency c1,
      let o1 := get_or_create_customer qbo_request name currency (configured realm tok) w in
      let o2 := get_or_create_customer qbo_request name currency (configured realm tok)
                  (world_after o1) in
      result o1 = Ok c1 ->
      mismatch_requested name currency (requests o1) = false ->
      exists c2,
        result o2 = Ok c2 /\ customer_id c2 = customer_id c1 /\
        posts (requests o1) <= 1 /\ posts (requests o2) = 0 /\
        world_after o2 = world_after o1) /\
  (forall name account i1,
      let o1 := get_or_create_item qbo_request name account (configured realm tok) w in
      let o2 := get_or_create_item qbo_request name account (configured realm tok)
                  (world_after o1) in
      result o1 = Ok i1 ->
      exists i2,
        result o2 = Ok i2 /\ ItemRef_value i2 = ItemRef_value i1 /\
        posts (requests o1) <= 1 /\ posts (requests o2) = 0 /\
        world_after o2 = world_after o1) /\
  (forall name type id,
      let o1 := get_or_create_account qbo_request name type (configured realm tok) w in
      let o2 := get_or_create_account qbo_request name type (configured realm tok)
                  (world_after o1) in
      result o1 = Ok id ->
      is_None id = false ->
      result o2 = Ok id /\
      posts (requests o1) <= 1 /\ posts (requests o2) = 0 /\
      world_after o2 = world_after o1).
Proof.
  split; [|split]; intros.
  - apply get_or_create_customer_twice; assumption.
  - apply get_or_create_item_twice; assumption.
  - apply get_or_create_account_twice; assumption.
Qed.

End Idempotence.

(* ===================================================================== *)
(** * The in-memory service keeps the contract                            *)
(* ===================================================================== *)

Module MemQBOFacts.
Import MemQBO.

Lemma chop_quote_app (n : string) : chop_quote (n ++ "'") = Some n.
Proof.
  induction n as [|c n IH]; [reflexivity|].
  change (String c n ++ "'")%string with (String c (n ++ "'")%string).
  destruct n as [|c' n']; [reflexivity|].
  change (chop_quote (String c (String c' n' ++ "'")%string))
    with (option_map (String c) (chop_quote (String c' n' ++ "'")%string)).
  rewrite IH. reflexivity.
Qed.

Lemma answer_customer_query realm tok name w :
  answer_query (path (customer_query realm tok name)) w
  = query_response "Customer"
      (map customer_json (List.filter (fun r => String.eqb (c_name r) name) (customers w))).
Proof.
  assert (E : strip_prefix customer_prefix (path (customer_query realm tok name))
              = Some (name ++ "'")%string) by reflexivity.
  unfold answer_query, where_value.
  rewrite E, chop_quote_app. reflexivity.
Qed.

Lemma answer_item_query realm tok name w :
  answer_query (path (item_query realm tok name)) w
  = query_response "Item" (map named_json (named name (items w))).
Proof.
  assert (E1 : strip_prefix customer_prefix (path (item_query realm tok name)) = None)
    by reflexivity.
  assert (E2 : strip_prefix item_prefix (path (item_query realm tok name))
               = Some (name ++ "'")%string) by reflexivity.
  unfold answer_query, where_value.
  rewrite E1, E2, chop_quote_app. reflexivity.
Qed.

Lemma answer_account_query realm tok name w :
  answer_query (path (account_query realm tok name)) w
  = query_response "Account" (map named_json (named name (accounts w))).
Proof.
  assert (E1 : strip_prefix customer_prefix (path (account_query realm tok name)) = None)
    by reflexivity.
  assert (E2 : strip_prefix item_prefix (path (account_query realm tok name)) = None)
    by reflexivity.
  assert (E3 : strip_prefix account_prefix (path (account_query realm tok name))
               = Some (name ++ "'")%string) by reflexivity.
  unfold answer_query, where_value.
  rewrite E1, E2, E3, chop_quote_app. reflexivity.
Qed.

Lemma rows_of_query_response entity rows :
  query_rows (query_response entity rows) entity = Ok (JArr rows).
Proof.
  destruct rows; unfold query_response, query_rows; simpl.
  - reflexivity.
  - rewrite String.eqb_refl. reflexivity.
Qed.

Section Runs.

Variables (realm tok : string).

Lemma mem_get_customer_by_name name w :
  get_customer_by_name qbo_request name (configured realm tok) w =
    {| result := Ok (match List.filter (fun r => String.eqb (c_name r) name) (customers w) with
                     | [] => JNull
                     | r :: _ => customer_json r
                     end);
       self_after := configured realm tok; world_after := w;
       requests := [customer_query realm tok name] |}.
Proof.
  rewrite (get_customer_by_name_run qbo_request realm tok name w w
             (answer_query (path (customer_query realm tok name)) w)
             (map customer_json
                (List.filter (fun r => String.eqb (c_name r) name) (customers w)))).
  - destruct (List.filter _ (customers w)); reflexivity.
  - reflexivity.
  - rewrite answer_customer_query. apply rows_of_query_response.
Qed.

Lemma mem_create_customer name currency w :
  create_customer qbo_request name currency (configured realm tok) w =
    {| result := Ok {| DisplayName := name; Id := fresh_id w;
                       Customer_CurrencyRef :=
                         {| CurrencyRef_value := currency; CurrencyRef_name := None |} |};
       self_after := configured realm tok;
       world_after := {| customers := customers w ++ [new_customer name currency w];
                         items := items w; accounts := accounts w;
                         next_id := S (next_id w) |};
       requests := [create_customer_request realm tok name currency] |}.
Proof. reflexivity. Qed.

Lemma mem_get_item_by_name name w :
  get_item_by_name qbo_request name (configured realm tok) w =
    {| result := Ok (match named name (items w) with
                     | [] => None
                     | r :: _ => Some (item_of_row r)
                     end);
       self_after := configured realm tok; world_after := w;
       requests := [item_query realm tok name] |}.
Proof.
  assert (Hq : qbo_request (item_query realm tok name) w
               = (Ok (answer_query (path (item_query realm tok name)) w), w))
    by reflexivity.
  assert (Hrows : query_rows (answer_query (path (item_query realm tok name)) w) "Item"
                  = Ok (JArr (map named_json (named name (items w))))).
  { rewrite answer_item_query. apply rows_of_query_response. }
  unfold get_item_by_name.
  rewrite (bind_run _ _ _ _ _ _ _ _
             (_query_answered qbo_request realm tok _ _ _ _ Hq
                (query_rows_envelope _ _ _ Hrows))).
  unfold bind. rewrite Hrows. simpl.
  destruct (named name (items w)); reflexivity.
Qed.

Lemma mem_create_item name account w :
  create_item qbo_request name account (configured realm tok) w =
    {| result := Ok (item_of_row (new_named name w));
       self_after := configured realm tok;
       world_after := {| customers := customers w;
                         items := items w ++ [new_named name w];
                         accounts := accounts w; next_id := S (next_id w) |};
       requests := [create_item_request realm tok name account] |}.
Proof. reflexivity. Qed.

Lemma mem_get_account_id name w :
  get_account_id qbo_request name (configured realm tok) w =
    {| result := match named name (accounts w) with
                 | [] => Ok JNull
                 | [r] => Ok (JStr (n_id r))
                 | _ => Raise (conflict name)
                 end;
       self_after := configured realm tok; world_after := w;
       requests := [account_query realm tok name] |}.
Proof.
  rewrite (get_account_id_run qbo_request realm tok name w w
             (answer_query (path (account_query realm tok name)) w)
             (map named_json (named name (accounts w)))).
  - destruct (named name (accounts w)) as [|r [|r' rest]]; reflexivity.
  - reflexivity.
  - rewrite answer_account_query. apply rows_of_query_response.
Qed.

Lemma mem_create_account name type w :
  create_account qbo_request name type (configured realm tok) w =
    {| result := Ok (JStr (fresh_id w));
       self_after := configured realm tok;
       world_after := {| customers := customers w; items := items w;
                         accounts := accounts w ++ [new_named name w];
                         next_id := S (next_id w) |};
       requests := [create_account_request realm tok name type] |}.
Proof. reflexivity. Qed.

End Runs.

Lemma named_after_create name w rows :
  named name rows = [] ->
  named name (rows ++ [new_named name w]) = [new_named name w].
Proof.
  intros Hnone. unfold named in *. rewrite List.filter_app, Hnone. simpl.
  rewrite String.eqb_refl. reflexivity.
Qed.

(** The in-memory service keeps the contract. *)
Lemma mem_contract : service_contract qbo_request.
Proof.
  constructor.
  - intros rq w Hget. unfold qbo_request. rewrite Hget. reflexivity.
  - intros realm tok name currency w c Hl Hc.
    rewrite mem_get_customer_by_name in Hl. rewrite mem_create_customer in *.
    simpl in *. injection Hc as <-.
    rewrite mem_get_customer_by_name. simpl.
    destruct (List.filter (fun r => String.eqb (c_name r) name) (customers w)) eqn:Hnone;
      [|discriminate].
    rewrite List.filter_app, Hnone. simpl. rewrite String.eqb_refl.
    eexists. split; reflexivity.
  - intros realm tok name account w i Hl Hc.
    rewrite mem_get_item_by_name in Hl. rewrite mem_create_item in *.
    simpl in *. injection Hc as <-.
    rewrite mem_get_item_by_name. simpl.
    destruct (named name (items w)) eqn:Hnone; [|discriminate].
    rewrite (named_after_create _ _ _ Hnone).
    eexists. split; reflexivity.
  - intros realm tok name type w id Hl Hc Hid.
    rewrite mem_get_account_id in Hl. rewrite mem_create_account in *.
    simpl in *. injection Hc as <-.
    rewrite mem_get_account_id. simpl.
    destruct (named name (accounts w)) as [|r [|r' rest]] eqn:Hnone; try discriminate.
    rewrite (named_after_create _ _ _ Hnone). reflexivity.
Qed.

End MemQBOFacts.

(** On the empty in-memory service the first call creates customer "1", the
    second finds it. *)
Lemma get_or_create_twice_witness :
  let o1 := get_or_create_customer MemQBO.qbo_request "Acme Corp" "USD"
              (configured "4620816365" "token") MemQBO.empty in
  let o2 := get_or_create_customer MemQBO.qbo_request "Acme Corp" "USD"
              (configured "4620816365" "token") (world_after o1) in
  exists c1 c2,
    result o1 = Ok c1 /\ result o2 = Ok c2 /\
    customer_id c1 = Ok (JStr "1") /\ customer_id c2 = Ok (JStr "1") /\
    posts (requests o1) <= 1 /\ posts (requests o2) = 0.
Proof.
  cbv zeta.
  destruct (get_or_create_twice MemQBO.qbo_request "4620816365" "token"
              MemQBOFacts.mem_contract MemQBO.empty) as (Hcustomer & _ & _).
  destruct (Hcustomer "Acme Corp" "USD"
              (Built {| DisplayName := "Acme Corp"; Id := "1";
                        Customer_CurrencyRef :=
                          {| CurrencyRef_value := "USD"; CurrencyRef_name := None |} |})
              eq_refl eq_refl)
    as (c2 & H2 & Hid & Hp1 & Hp2 & _).
  eexists. exists c2.
  split; [reflexivity|].
  split; [exact H2|].
  split; [reflexivity|].
  split; [exact Hid|].
  split; [exact Hp1 | exact Hp2].
Defined.

(* ===================================================================== *)
(** * Further properties of the client                                    *)
(* ===================================================================== *)

Section Queries.

Context {World : Type} (qbo_request : Request -> World -> Res json * World).
Variables (realm tok : string).

(** A query answered with an object that has no "QueryResponse". *)
Lemma _query_failed q (w w1 : World) kvs :
  qbo_request (query_request realm tok q) w = (Ok (JObj kvs), w1) ->
  dict_has "QueryResponse" kvs = false ->
  _query qbo_request q (configured realm tok) w =
    {| result := Raise (Exception [Lit "Query failed: "; Interp (JObj kvs)]);
       self_after := configured realm tok; world_after := w1;
       requests := [query_request realm tok q] |}.
Proof.
  intros Hq Hk. unfold _query, bind. rewrite _request_configured.
  fold (query_request realm tok q). rewrite Hq. simpl. rewrite Hk. reflexivity.
Qed.

(** X1. When the service answers queries with an object that lacks
    "QueryResponse", each of the four lookups raises "Query failed" quoting
    that object, and each get-or-create stops there: the query is the only
    request sent, nothing is created. *)
Theorem lookups_fail_without_results_envelope
    (w w1 : World) kvs tax_code_id name currency account type :
  (forall rq, method rq = "GET" -> qbo_request rq w = (Ok (JObj kvs), w1)) ->
  dict_has "QueryResponse" kvs = false ->
  result (get_tax_code qbo_request tax_code_id (configured realm tok) w)
  = query_failed (JObj kvs) /\
  result (get_customer_by_name qbo_request name (configured realm tok) w)
  = query_failed (JObj kvs) /\
  result (get_item_by_name qbo_request name (configured realm tok) w)
  = query_failed (JObj kvs) /\
  result (get_account_id qbo_request name (configured realm tok) w)
  = query_failed (JObj kvs) /\
  get_or_create_customer qbo_request name currency (configured realm tok) w
  = {| result := query_failed (JObj kvs); self_after := configured realm tok; world_after := w1;
       requests := [customer_query realm tok name] |} /\
  get_or_create_item qbo_request name account (configured realm tok) w
  = {| result := query_failed (JObj kvs); self_after := configured realm tok; world_after := w1;
       requests := [item_query realm tok name] |} /\
  get_or_create_account qbo_request name type (configured realm tok) w
  = {| result := query_failed (JObj kvs); self_after := configured realm tok; world_after := w1;
       requests := [account_query realm tok name] |}.
Proof.
  intros Hget Hk. unfold query_failed.
  assert (Hq : forall q,
             _query qbo_request q (configured realm tok) w =
             {| result := Raise (Exception [Lit "Query failed: "; Interp (JObj kvs)]);
                self_after := configured realm tok; world_after := w1;
                requests := [query_request realm tok q] |}).
  { intros q. apply _query_failed; [apply Hget; reflexivity | exact Hk]. }
  repeat split.
  - unfold get_tax_code. rewrite (bind_stop _ _ _ _ _ _ _ _ (Hq _)). reflexivity.
  - unfold get_customer_by_name. rewrite (bind_stop _ _ _ _ _ _ _ _ (Hq _)). reflexivity.
  - unfold get_item_by_name. rewrite (bind_stop _ _ _ _ _ _ _ _ (Hq _)). reflexivity.
  - unfold get_account_id. rewrite (bind_stop _ _ _ _ _ _ _ _ (Hq _)). reflexivity.
  - unfold get_or_create_customer, get_customer_by_name.
    apply bind_stop. apply bind_stop. apply Hq.
  - unfold get_or_create_item, get_item_by_name.
    apply bind_stop. apply bind_stop. apply Hq.
  - unfold get_or_create_account, get_account_id.
    apply bind_stop. apply bind_stop. apply Hq.
Qed.

(** The tax code lookup, once the service has answered with [rows]. *)
Lemma get_tax_code_run tax_code_id (w w1 : World) response rows :
  qbo_request
    (query_request realm tok ("select * from TaxCode where Id = '" ++ tax_code_id ++ "'"))
    w = (Ok response, w1) ->
  query_rows response "TaxCode" = Ok (JArr rows) ->
  get_tax_code qbo_request tax_code_id (configured realm tok) w =
    {| result := match rows with
                 | [] => Ok None
                 | first :: _ =>
                     res_bind (kwargs first) (fun kvs =>
                     res_bind (validate_TaxCode kvs) (fun t => Ok (Some t)))
                 end;
       self_after := configured realm tok; world_after := w1;
       requests :=
         [query_request realm tok
            ("select * from TaxCode where Id = '" ++ tax_code_id ++ "'")] |}.
Proof.
  intros Hq Hrows. unfold get_tax_code.
  rewrite (bind_run _ _ _ _ _ _ _ _
             (_query_answered qbo_request realm tok _ _ _ _ Hq
                (query_rows_envelope _ _ _ Hrows))).
  unfold bind. rewrite Hrows. simpl.
  destruct rows as [|first rest]; [reflexivity|]. simpl.
  destruct (kwargs first) as [kvs|e]; simpl; [|reflexivity].
  destruct (validate_TaxCode kvs); reflexivity.
Qed.

(** X2. A tax code query that matches nothing (an empty list, or no
    "TaxCode" key under "QueryResponse") makes [get_tax_code] return [None]
    rather than raise; a match whose first row is not an object raises
    [TypeError]. Either way the query is the only request. *)
Theorem get_tax_code_no_match
    tax_code_id (w w1 : World) response rows :
  qbo_request
    (query_request realm tok ("select * from TaxCode where Id = '" ++ tax_code_id ++ "'"))
    w = (Ok response, w1) ->
  query_rows response "TaxCode" = Ok (JArr rows) ->
  let o := get_tax_code qbo_request tax_code_id (configured realm tok) w in
  sent (requests o) = [("GET", "/query?query=select * from TaxCode where Id = '"
                                 ++ tax_code_id ++ "'")%string] /\
  (rows = [] -> result o = Ok None) /\
  (forall first rest, rows = first :: rest -> (forall kvs, first <> JObj kvs) ->
                      result o = Raise TypeError).
Proof.
  intros Hq Hrows. cbv zeta. rewrite (get_tax_code_run _ _ _ _ _ Hq Hrows). simpl.
  split; [reflexivity|]. split.
  - intros ->. reflexivity.
  - intros first rest -> Hno. destruct first; try reflexivity.
    exfalso. apply (Hno kvs). reflexivity.
Qed.

End Queries.

(** An empty "QueryResponse": no tax code. *)
Lemma get_tax_code_no_match_witness :
  result (get_tax_code (canned (Ok (JObj [("QueryResponse", JObj [])]))) "TAX"
            (configured "4620816365" "token") tt) = Ok None.
Proof.
  destruct (get_tax_code_no_match (canned (Ok (JObj [("QueryResponse", JObj [])])))
              "4620816365" "token" "TAX" tt tt (JObj [("QueryResponse", JObj [])]) []
              eq_refl eq_refl) as (_ & Hnone & _).
  apply Hnone. reflexivity.
Defined.

(** A "Fault" answer to the lookup of a get-or-create. *)
Lemma lookups_fail_without_results_envelope_witness :
  get_or_create_account (canned (Ok (JObj fault_fields))) "Stripe Fees" "Expense"
    (configured "4620816365" "token") tt
  = {| result := query_failed (JObj fault_fields);
       self_after := configured "4620816365" "token"; world_after := tt;
       requests := [account_query "4620816365" "token" "Stripe Fees"] |}.
Proof.
  destruct (lookups_fail_without_results_envelope (canned (Ok (JObj fault_fields)))
              "4620816365" "token" tt tt fault_fields "TAX" "Stripe Fees" "USD" "79"
              "Expense" (fun _ _ => eq_refl) eq_refl)
    as (_ & _ & _ & _ & _ & _ & H).
  exact H.
Defined.

Section Transactions.

Context {World : Type} (qbo_request : Request -> World -> Res json * World).

(** X3. Whatever the client held before (nothing, or an earlier token),
    after [set_token] an operation is not stopped at the token check and
    its request carries the realm and access token of that token: the last
    token set is the one used. [set_token] itself sends nothing. *)
Theorem set_token_then_operation
    (self : QBO) (w : World) (token : Token) amount date source destination note :
  let o := bind (set_token token)
             (fun _ => create_transfer qbo_request amount date source destination note)
             self w in
  requests o =
    [request_of (Token_realm_id token) (Token_access_token token) "/transfer" "POST"
       (Some (JObj (create_transfer_body amount date source destination note)))] /\
  self_after o = configured (Token_realm_id token) (Token_access_token token) /\
  requests (set_token token self w) = [] /\
  world_after (set_token token self w) = w.
Proof.
  cbv zeta. unfold bind at 1. simpl.
  fold (configured (Token_realm_id token) (Token_access_token token)).
  destruct (sends_only_bind qbo_request (Token_realm_id token) (Token_access_token token)
              _ _ (fun r => lift (entity_id r "Transfer"))
              (sends_only_request qbo_request _ _ "/transfer" "POST"
                 (Some (JObj (create_transfer_body amount date source destination note))))
              (fun r => pure_lift _) w) as (Hs & _ & Hr).
  unfold create_transfer. unfold entity_id in Hs, Hr.
  rewrite Hs, Hr. repeat split.
Qed.

Variables (realm tok : string).



(** X5. Each of the four transaction calls sends exactly one request, the
    POST to its endpoint, whatever the service answers: no lookup comes
    before it and nothing follows a failure. *)
Theorem transactions_send_one_post
    (w : World)
    customer_id lines created_date inv_currency inv_note due_date txn_date tax_detail
    inv_number invoice_id amount date account currency rate note
    bank vendor expense description source destination :
  sent (requests (create_invoice qbo_request customer_id lines created_date inv_currency
                    inv_note due_date txn_date tax_detail inv_number
                    (configured realm tok) w))
  = [("POST", "invoice")] /\
  sent (requests (create_invoice_payment qbo_request invoice_id customer_id amount date
                    account currency rate note (configured realm tok) w))
  = [("POST", "/payment")] /\
  sent (requests (create_expense qbo_request amount date bank vendor expense note
                    description (configured realm tok) w))
  = [("POST", "/purchase")] /\
  sent (requests (create_transfer qbo_request amount date source destination note
                    (configured realm tok) w))
  = [("POST", "/transfer")].
Proof.
  unfold create_invoice, create_invoice_payment, create_expense, create_transfer.
  rewrite !request_then_pure. repeat split.
Qed.

(** A create call that reads [response[key]["Id"]]. *)
Lemma create_reads_entity_id p b key (w : World) response :
  fst (qbo_request (request_of realm tok p "POST" b) w) = Ok response ->
  result (bind (_request qbo_request p "POST" b)
            (fun r => lift (res_bind (subscript r key) (fun e => subscript e "Id")))
            (configured realm tok) w)
  = entity_id response key.
Proof.
  intros Hr. unfold bind. rewrite _request_configured. simpl. rewrite Hr.
  rewrite lift_pure. reflexivity.
Qed.

(** X6. When the service answers [response], each of [create_account],
    [create_invoice], [create_invoice_payment], [create_expense] and
    [create_transfer] returns what sits at [response[key]["Id"]] for its
    envelope key, as it is (a string id is returned unchanged), and raises
    what that subscripting raises. *)
Theorem create_returns_entity_id
    (w : World) response
    account_name account_type
    customer_id lines created_date inv_currency inv_note due_date txn_date tax_detail
    inv_number invoice_id amount date account currency rate note
    bank vendor expense description source destination :
  (forall rq, fst (qbo_request rq w) = Ok response) ->
  result (create_account qbo_request account_name account_type (configured realm tok) w)
  = entity_id response "Account" /\
  result (create_invoice qbo_request customer_id lines created_date inv_currency
            inv_note due_date txn_date tax_detail inv_number (configured realm tok) w)
  = entity_id response "Invoice" /\
  result (create_invoice_payment qbo_request invoice_id customer_id amount date
            account currency rate note (configured realm tok) w)
  = entity_id response "Payment" /\
  result (create_expense qbo_request amount date bank vendor expense note
            description (configured realm tok) w)
  = entity_id response "Purchase" /\
  result (create_transfer qbo_request amount date source destination note
            (configured realm tok) w)
  = entity_id response "Transfer".
Proof.
  intros Hall.
  repeat split; apply create_reads_entity_id; apply Hall.
Qed.

(** X7. A transaction call is not idempotent: called again after it
    succeeded, with the same arguments, it sends the same POST a second
    time. *)
Theorem create_transfer_twice_posts_twice
    (w : World) amount date source destination note id :
  result (create_transfer qbo_request amount date source destination note
            (configured realm tok) w) = Ok id ->
  requests (bind (create_transfer qbo_request amount date source destination note)
              (fun _ => create_transfer qbo_request amount date source destination note)
              (configured realm tok) w)
  = [request_of realm tok "/transfer" "POST"
       (Some (JObj (create_transfer_body amount date source destination note)));
     request_of realm tok "/transfer" "POST"
       (Some (JObj (create_transfer_body amount date source destination note)))].
Proof.
  intros Hok.
  pose proof (sends_only_bind qbo_request realm tok _ _
                (fun r => lift (entity_id r "Transfer"))
                (sends_only_request qbo_request realm tok "/transfer" "POST"
                   (Some (JObj (create_transfer_body amount date source destination note))))
                (fun r => pure_lift _)) as Hfoot.
  unfold entity_id in Hfoot. fold (create_transfer qbo_request amount date source
                                     destination note) in Hfoot.
  rewrite (bind_Ok _ _ _ _ _ Hok). cbv zeta. simpl.
  destruct (Hfoot w) as (Hs & _ & Hr). rewrite Hs, Hr.
  destruct (Hfoot (world_after (create_transfer qbo_request amount date source
                                  destination note (configured realm tok) w)))
    as (_ & _ & Hr').
  rewrite Hr'. reflexivity.
Qed.

(** X8. The invoice body always has the same eight keys in the same
    order: the conditional assignments of DueDate and TxnDate overwrite in
    place and never add a key. *)
Theorem create_invoice_body_keys
    (w : World) customer_id lines created_date inv_currency inv_note due_date txn_date
    tax_detail inv_number :
  exists b,
    requests (create_invoice qbo_request customer_id lines created_date inv_currency
                inv_note due_date txn_date tax_detail inv_number
                (configured realm tok) w)
    = [request_of realm tok "invoice" "POST" (Some (JObj b))] /\
    map fst b = ["CustomerRef"; "CurrencyRef"; "Line"; "TxnDate"; "DueDate";
                 "TxnTaxDetail"; "PrivateNote"; "DocNumber"].
Proof.
  eexists. split; [apply request_then_pure|].
  unfold create_invoice_body. destruct due_date, created_date; reflexivity.
Qed.

(** X9. The expense body has the bank account as its top-level AccountRef,
    payment type "Check", the vendor as EntityRef, and exactly one line: an
    account-based expense line against the expense account, for the full
    amount of the purchase. *)
Theorem create_expense_one_line
    (w : World) amount date bank vendor expense note description :
  exists b,
    requests (create_expense qbo_request amount date bank vendor expense note
                description (configured realm tok) w)
    = [request_of realm tok "/purchase" "POST" (Some (JObj b))] /\
    dict_get "TotalAmt" b = Some (JFloat amount) /\
    dict_get "AccountRef" b = Some (JObj [("value", JStr bank)]) /\
    dict_get "PaymentType" b = Some (JStr "Check") /\
    dict_get "EntityRef" b = Some (JObj [("value", JStr vendor)]) /\
    exists line,
      dict_get "Line" b = Some (JArr [JObj line]) /\
      dict_get "Amount" line = Some (JFloat amount) /\
      dict_get "DetailType" line = Some (JStr "AccountBasedExpenseLineDetail") /\
      dict_get "AccountBasedExpenseLineDetail" line
      = Some (JObj [("AccountRef", JObj [("value", JStr expense)])]).
Proof.
  eexists. split; [apply request_then_pure|].
  repeat split. eexists. repeat split.
Qed.

End Transactions.


(** The id of the invoice the service answers with. *)
Lemma create_returns_entity_id_witness :
  result (create_invoice (canned (Ok (JObj [("Invoice", JObj [("Id", JStr "130")])])))
            "58" [] (Some sample_date) (Some "USD") None None None None None
            (configured "4620816365" "token") tt)
  = Ok (JStr "130").
Proof.
  destruct (create_returns_entity_id
              (canned (Ok (JObj [("Invoice", JObj [("Id", JStr "130")])])))
              "4620816365" "token" tt (JObj [("Invoice", JObj [("Id", JStr "130")])])
              "Stripe Fees" "Expense"
              "58" [] (Some sample_date) (Some "USD") None None None None None
              None sample_amount sample_date "35" "USD" None ""
              "35" "56" "7" None "35" "36" (fun _ => eq_refl))
    as (_ & H & _).
  exact H.
Defined.

(** Two transfers for one call repeated. *)
Lemma create_transfer_twice_posts_twice_witness :
  posts (requests
           (bind (create_transfer
                    (canned (Ok (JObj [("Transfer", JObj [("Id", JStr "140")])])))
                    sample_amount sample_date "35" "36" "")
              (fun _ => create_transfer
                          (canned (Ok (JObj [("Transfer", JObj [("Id", JStr "140")])])))
                          sample_amount sample_date "35" "36" "")
              (configured "4620816365" "token") tt))
  = 2.
Proof.
  rewrite (create_transfer_twice_posts_twice
             (canned (Ok (JObj [("Transfer", JObj [("Id", JStr "140")])])))
             "4620816365" "token" tt sample_amount sample_date "35" "36" ""
             (JStr "140") eq_refl).
  reflexivity.
Defined.

(* ===================================================================== *)
(** * Further properties of customers, items and accounts                 *)
(* ===================================================================== *)

Section Entities.

Context {World : Type} (qbo_request : Request -> World -> Res json * World).
Variables (realm tok : string).

(** X10. The currency-mismatch branch. When the lookup finds no customer
    and the customer then created comes back in another currency than the
    one asked for, a second customer named "{name} ({currency})" is created
    and it is the result: three requests in all, the query and two creates. *)
Theorem get_or_create_customer_mismatch_branch
    name currency (w w1 : World) response c :
  qbo_request (customer_query realm tok name) w = (Ok response, w1) ->
  query_rows response "Customer" = Ok (JArr []) ->
  result (create_customer qbo_request name currency (configured realm tok) w1) = Ok c ->
  String.eqb (CurrencyRef_value (Customer_CurrencyRef c)) currency = false ->
  let first := create_customer qbo_request name currency (configured realm tok) w1 in
  let second := create_customer qbo_request (name ++ " (" ++ currency ++ ")") currency
                  (configured realm tok) (world_after first) in
  get_or_create_customer qbo_request name currency (configured realm tok) w =
    {| result := match result second with
                 | Ok created => Ok (Built created)
                 | Raise e => Raise e
                 end;
       self_after := configured realm tok;
       world_after := world_after second;
       requests := [customer_query realm tok name;
                    create_customer_request realm tok name currency;
                    create_customer_request realm tok (name ++ " (" ++ currency ++ ")")
                      currency] |}.
Proof.
  intros Hq Hrows Hc Hcur. cbv zeta.
  destruct (sends_only_create_customer qbo_request realm tok name currency w1)
    as (Hs & _ & Hr).
  destruct (sends_only_create_customer qbo_request realm tok
              (name ++ " (" ++ currency ++ ")") currency
              (world_after (create_customer qbo_request name currency
                              (configured realm tok) w1)))
    as (Hs' & _ & Hr').
  unfold get_or_create_customer.
  rewrite (bind_run _ _ _ _ _ _ _ _ (get_customer_by_name_run qbo_request realm tok _ _ _ _ _ Hq Hrows)).
  simpl. rewrite (bind_Ok _ _ _ _ _ Hc). cbv zeta. rewrite Hcur, Hs, Hr. simpl.
  unfold bind at 1 2 3 4.
  destruct (result (create_customer qbo_request (name ++ " (" ++ currency ++ ")") currency
                      (configured realm tok)
                      (world_after (create_customer qbo_request name currency
                                      (configured realm tok) w1)))) eqn:Hsecond;
    simpl; rewrite ?Hs', ?Hr'; reflexivity.
Qed.

(** The item lookup, once the service has answered with [items]. *)
Lemma get_item_by_name_run name (w w1 : World) response items :
  qbo_request (item_query realm tok name) w = (Ok response, w1) ->
  query_rows response "Item" = Ok (JArr items) ->
  get_item_by_name qbo_request name (configured realm tok) w =
    {| result := match items with
                 | [] => Ok None
                 | first :: _ =>
                     res_bind (subscript first "Id") (fun value =>
                     res_bind (subscript first "Name") (fun n =>
                     res_bind (validate_ItemRef value n) (fun item => Ok (Some item))))
                 end;
       self_after := configured realm tok; world_after := w1;
       requests := [item_query realm tok name] |}.
Proof.
  intros Hq Hrows. unfold get_item_by_name.
  rewrite (bind_run _ _ _ _ _ _ _ _
             (_query_answered qbo_request realm tok _ _ _ _ Hq
                (query_rows_envelope _ _ _ Hrows))).
  unfold bind. rewrite Hrows. simpl.
  destruct items as [|first rest]; [reflexivity|]. simpl.
  destruct (subscript first "Id") as [value|e]; simpl; [|reflexivity].
  destruct (subscript first "Name") as [n|e]; simpl; [|reflexivity].
  destruct (validate_ItemRef value n); reflexivity.
Qed.

(** X11. Several items under one name are not a conflict (unlike
    accounts): [get_or_create_item] returns the first one listed, built from
    its "Id" and "Name", and sends the query only. A first row without
    "Name" makes the lookup raise [KeyError]. *)
Theorem get_or_create_item_takes_first
    name account (w w1 : World) response first rest :
  qbo_request (item_query realm tok name) w = (Ok response, w1) ->
  query_rows response "Item" = Ok (JArr (first :: rest)) ->
  (forall id item_name,
      subscript first "Id" = Ok (JStr id) ->
      subscript first "Name" = Ok (JStr item_name) ->
      get_or_create_item qbo_request name account (configured realm tok) w =
        {| result := Ok {| ItemRef_value := id; ItemRef_name := Some item_name |};
           self_after := configured realm tok; world_after := w1;
           requests := [item_query realm tok name] |}) /\
  (forall id,
      subscript first "Id" = Ok id ->
      subscript first "Name" = Raise (KeyError (JStr "Name")) ->
      get_or_create_item qbo_request name account (configured realm tok) w =
        {| result := Raise (KeyError (JStr "Name"));
           self_after := configured realm tok; world_after := w1;
           requests := [item_query realm tok name] |}).
Proof.
  intros Hq Hrows.
  pose proof (get_item_by_name_run name w w1 response _ Hq Hrows) as Hrun.
  cbv beta iota in Hrun.
  split.
  - intros id item_name Hid Hname. rewrite Hid, Hname in Hrun. simpl in Hrun.
    unfold get_or_create_item. rewrite (bind_run _ _ _ _ _ _ _ _ Hrun). reflexivity.
  - intros id Hid Hname. rewrite Hid, Hname in Hrun. simpl in Hrun.
    unfold get_or_create_item. apply bind_stop. exact Hrun.
Qed.

(** X12. An account lookup with exactly one match makes
    [get_or_create_account] return that account's id without creating
    anything; but a single match whose "Id" is null counts as no match, and
    the account is created. *)
Theorem get_or_create_account_single_match
    name type (w w1 : World) response a :
  qbo_request (account_query realm tok name) w = (Ok response, w1) ->
  query_rows response "Account" = Ok (JArr [a]) ->
  (forall id, subscript a "Id" = Ok id -> is_None id = false ->
      get_or_create_account qbo_request name type (configured realm tok) w =
        {| result := Ok id; self_after := configured realm tok; world_after := w1;
           requests := [account_query realm tok name] |}) /\
  (subscript a "Id" = Ok JNull ->
      requests (get_or_create_account qbo_request name type (configured realm tok) w) =
        [account_query realm tok name; create_account_request realm tok name type]).
Proof.
  intros Hq Hrows.
  pose proof (get_account_id_run qbo_request realm tok name w w1 response _ Hq Hrows)
    as Hrun.
  cbv beta iota in Hrun.
  split.
  - intros id Hid Hsome. rewrite Hid in Hrun.
    unfold get_or_create_account. rewrite (bind_run _ _ _ _ _ _ _ _ Hrun).
    rewrite Hsome. reflexivity.
  - intros Hnull. rewrite Hnull in Hrun.
    unfold get_or_create_account. rewrite (bind_run _ _ _ _ _ _ _ _ Hrun). simpl.
    destruct (sends_only_create_account qbo_request realm tok name type w1)
      as (_ & _ & Hr).
    rewrite Hr. reflexivity.
Qed.

(** X13. [create_customer] with the envelope present: an entity that is
    not an object raises [TypeError], an object without a string "Id" raises
    [ValidationError], and a well-formed entity is returned as a [Customer]
    with the service's own display name, id and currency (not the ones
    asked for). One POST is sent in every case. *)
Theorem create_customer_reads_entity
    name currency (w : World) kvs entity :
  fst (qbo_request (create_customer_request realm tok name currency) w) = Ok (JObj kvs) ->
  dict_get "Customer" kvs = Some entity ->
  let o := create_customer qbo_request name currency (configured realm tok) w in
  sent (requests o) = [("POST", "customer")] /\
  ((forall fields, entity <> JObj fields) -> result o = Raise TypeError) /\
  (forall fields, entity = JObj fields ->
                  (forall id, dict_get "Id" fields <> Some (JStr id)) ->
                  result o = Raise ValidationError) /\
  (forall fields cr dn id v n,
      entity = JObj fields ->
      dict_get "DisplayName" fields = Some (JStr dn) ->
      dict_get "Id" fields = Some (JStr id) ->
      dict_get "CurrencyRef" fields = Some (JObj cr) ->
      dict_get "value" cr = Some (JStr v) ->
      dict_get "name" cr = Some (JStr n) ->
      result o = Ok {| DisplayName := dn; Id := id;
                       Customer_CurrencyRef :=
                         {| CurrencyRef_value := v; CurrencyRef_name := Some n |} |}).
Proof.
  intros Hr Hent. cbv zeta.
  destruct (sends_only_create_customer qbo_request realm tok name currency w)
    as (_ & _ & Hsent).
  rewrite Hsent. split; [reflexivity|].
  assert (Hres : result (create_customer qbo_request name currency (configured realm tok) w)
                 = res_bind (kwargs entity) validate_Customer).
  { unfold create_customer, bind. rewrite _request_configured. simpl.
    fold (create_customer_request realm tok name currency). rewrite Hr.
    rewrite lift_pure. simpl. unfold dict_has. rewrite Hent. simpl.
    destruct (kwargs entity) as [fields|e]; simpl; [|reflexivity].
    rewrite lift_pure. reflexivity. }
  rewrite Hres. split; [|split].
  - intros Hno. destruct entity; try reflexivity. exfalso. apply (Hno kvs0). reflexivity.
  - intros fields -> Hid. simpl. unfold validate_Customer.
    destruct (dict_get "DisplayName" fields) as [[| | | |dn| |]|]; try reflexivity.
    simpl.
    destruct (dict_get "Id" fields) as [[| | | |s| |]|]; try reflexivity.
    exfalso. apply (Hid s). reflexivity.
  - intros fields cr dn id v n -> Hdn Hid Hcr Hv Hn. simpl.
    unfold validate_Customer, validate_CurrencyRef.
    rewrite Hdn, Hid, Hcr. simpl. rewrite Hv, Hn. reflexivity.
Qed.

End Entities.

(** A service that keeps every customer in USD, asked for "Acme Corp" in
    EUR: two customers are created. *)
Lemma get_or_create_customer_mismatch_branch_witness :
  sent (requests (get_or_create_customer (canned (Ok home_currency_answer))
                    "Acme Corp" "EUR" (configured "4620816365" "token") tt))
  = [("GET", "/query?query=select * from Customer where DisplayName = 'Acme Corp'");
     ("POST", "customer"); ("POST", "customer")].
Proof.
  rewrite (get_or_create_customer_mismatch_branch (canned (Ok home_currency_answer))
             "4620816365" "token" "Acme Corp" "EUR" tt tt home_currency_answer
             {| DisplayName := "Acme Corp"; Id := "58";
                Customer_CurrencyRef :=
                  {| CurrencyRef_value := "USD";
                     CurrencyRef_name := Some "United States Dollar" |} |}
             eq_refl eq_refl eq_refl eq_refl).
  reflexivity.
Defined.

(** Two items named "Consulting": the first one. *)
Lemma get_or_create_item_takes_first_witness :
  result (get_or_create_item
            (canned (Ok (JObj [("QueryResponse", JObj [("Item", JArr two_items)])])))
            "Consulting" "79" (configured "4620816365" "token") tt)
  = Ok {| ItemRef_value := "11"; ItemRef_name := Some "Consulting" |}.
Proof.
  destruct (get_or_create_item_takes_first
              (canned (Ok (JObj [("QueryResponse", JObj [("Item", JArr two_items)])])))
              "4620816365" "token" "Consulting" "79" tt tt
              (JObj [("QueryResponse", JObj [("Item", JArr two_items)])])
              (JObj [("Name", JStr "Consulting"); ("Id", JStr "11")])
              [JObj [("Name", JStr "Consulting"); ("Id", JStr "12")]]
              eq_refl eq_refl) as (Hfirst & _).
  rewrite (Hfirst "11" "Consulting" eq_refl eq_refl). reflexivity.
Defined.

(** One account named "Stripe Fees": its id, and no create request. *)
Lemma get_or_create_account_single_match_witness :
  get_or_create_account
    (canned (Ok (JObj [("QueryResponse",
                        JObj [("Account", JArr [JObj [("Id", JStr "91")]])])])))
    "Stripe Fees" "Expense" (configured "4620816365" "token") tt
  = {| result := Ok (JStr "91");
       self_after := configured "4620816365" "token"; world_after := tt;
       requests := [account_query "4620816365" "token" "Stripe Fees"] |}.
Proof.
  destruct (get_or_create_account_single_match
              (canned (Ok (JObj [("QueryResponse",
                                  JObj [("Account", JArr [JObj [("Id", JStr "91")]])])])))
              "4620816365" "token" "Stripe Fees" "Expense" tt tt
              (JObj [("QueryResponse",
                      JObj [("Account", JArr [JObj [("Id", JStr "91")]])])])
              (JObj [("Id", JStr "91")]) eq_refl eq_refl) as (Hone & _).
  apply (Hone (JStr "91")); reflexivity.
Defined.

(** A customer entity without "Id". *)
Lemma create_customer_reads_entity_witness :
  result (create_customer
            (canned (Ok (JObj [("Customer", JObj [("DisplayName", JStr "Acme Corp")])])))
            "Acme Corp" "USD" (configured "4620816365" "token") tt)
  = Raise ValidationError.
Proof.
  destruct (create_customer_reads_entity
              (canned (Ok (JObj [("Customer", JObj [("DisplayName", JStr "Acme Corp")])])))
              "4620816365" "token" "Acme Corp" "USD" tt
              [("Customer", JObj [("DisplayName", JStr "Acme Corp")])]
              (JObj [("DisplayName", JStr "Acme Corp")]) eq_refl eq_refl)
    as (_ & _ & Hbad & _).
  apply (Hbad [("DisplayName", JStr "Acme Corp")]); [reflexivity|].
  intros id. discriminate.
Defined.

(* ===================================================================== *)
(** * Further properties of the settings file                             *)
(* ===================================================================== *)

(** X14. A settings file keyed by the camel-cased aliases loads to the
    settings it describes, for every [Settings] value. *)
Theorem load_reads_aliases (s : Settings) (path : string) (fs : files) :
  load_from_file path (<[path := camel_dump s]> fs) = Ok (Some s).
Proof.
  unfold load_from_file. rewrite lookup_insert_eq.
  destruct s as [a b c d [e|] f g]; reflexivity.
Qed.

Lemma validate_str_raises (v : option json) e :
  validate_str v = Raise e -> e = ValidationError.
Proof.
  unfold validate_str. destruct v as [[| | | |s| |]|]; intros H;
    try discriminate; injection H as <-; reflexivity.
Qed.

Lemma validate_default_none_raises (v : option json) e :
  validate_default_none v = Raise e -> e = ValidationError.
Proof.
  unfold validate_default_none, validate_opt_str.
  destruct v as [[| | | |s| |]|]; intros H;
    try discriminate; injection H as <-; reflexivity.
Qed.

(** Whatever makes [Settings( **data)] fail, it is a [ValidationError]. *)
Lemma validate_Settings_raises kvs e :
  validate_Settings kvs = Raise e -> e = ValidationError.
Proof.
  unfold validate_Settings.
  repeat match goal with
         | |- res_bind (validate_str ?v) _ = Raise _ -> _ =>
             let H := fresh "H" in
             destruct (validate_str v) eqn:H;
             [simpl | simpl; intros H'; injection H' as <-;
                      apply (validate_str_raises _ _ H)]
         | |- res_bind (validate_default_none ?v) _ = Raise _ -> _ =>
             let H := fresh "H" in
             destruct (validate_default_none v) eqn:H;
             [simpl | simpl; intros H'; injection H' as <-;
                      apply (validate_default_none_raises _ _ H)]
         end.
  discriminate.
Qed.

(** X15. Loading never yields partial settings: a file whose document is
    not an object raises [TypeError], and an object that gives one of the six
    required fields neither under its alias nor under its name raises
    [ValidationError]. *)
Theorem load_rejects_incomplete_file (path : string) (fs : files) (doc : json) :
  fs !! path = Some doc ->
  ((forall kvs, doc <> JObj kvs) -> load_from_file path fs = Raise TypeError) /\
  (forall kvs field,
      doc = JObj kvs -> In field required_fields -> field_input field kvs = None ->
      load_from_file path fs = Raise ValidationError).
Proof.
  intros Hfile. unfold load_from_file. rewrite Hfile. split.
  - intros Hno. destruct doc; try reflexivity. exfalso. apply (Hno kvs). reflexivity.
  - intros kvs field -> Hin Hmissing. simpl.
    destruct (validate_Settings kvs) as [s|e] eqn:Hv.
    + exfalso. unfold validate_Settings in Hv.
      repeat match type of Hv with
             | res_bind (validate_str ?v) _ = Ok _ =>
                 let H := fresh "Hf" in
                 destruct v as [[| | | |?| |]|] eqn:H; simpl in Hv; try discriminate
             | res_bind (validate_default_none ?v) _ = Ok _ =>
                 destruct (validate_default_none v); simpl in Hv; try discriminate
             end.
      simpl in Hin. destruct Hin as [<-|[<-|[<-|[<-|[<-|[<-|[]]]]]]]; congruence.
    + simpl. rewrite (validate_Settings_raises _ _ Hv). reflexivity.
Qed.

(** A file that lacks the vendor id. *)
Lemma load_rejects_incomplete_file_witness :
  load_from_file "settings.json"
    (<["settings.json" := JObj [("stripeClearingAccountId", JStr "91")]]> ∅)
  = Raise ValidationError.
Proof.
  destruct (load_rejects_incomplete_file "settings.json"
              (<["settings.json" := JObj [("stripeClearingAccountId", JStr "91")]]> ∅)
              (JObj [("stripeClearingAccountId", JStr "91")])
              (lookup_insert_eq _ _ _)) as (_ & Hmissing).
  apply (Hmissing [("stripeClearingAccountId", JStr "91")] "stripe_vendor_id").
  - reflexivity.
  - simpl. tauto.
  - reflexivity.
Defined.

(** ** the alias generator *)

Lemma upper_ascii_keeps_letters c :
  Ascii.eqb c "_" = false -> Ascii.eqb (upper_ascii c) "_" = false.
Proof.
  destruct c as [[] [] [] [] [] [] [] []]; intros H;
    solve [vm_compute; reflexivity | vm_compute in H; discriminate].
Qed.

Lemma lower_ascii_keeps_letters c :
  Ascii.eqb c "_" = false -> Ascii.eqb (lower_ascii c) "_" = false.
Proof.
  destruct c as [[] [] [] [] [] [] [] []]; intros H;
    solve [vm_compute; reflexivity | vm_compute in H; discriminate].
Qed.

Lemma underscore_free_cons c s :
  underscore_free (String c s) = true <->
  Ascii.eqb c "_" = false /\ underscore_free s = true.
Proof.
  simpl. rewrite andb_true_iff, negb_true_iff. reflexivity.
Qed.

Lemma underscore_free_lower s : underscore_free s = true -> underscore_free (lower s) = true.
Proof.
  induction s as [|c s IH]; [reflexivity|].
  intros H. apply underscore_free_cons in H as [Hc Hs].
  change (lower (String c s)) with (String (lower_ascii c) (lower s)).
  apply underscore_free_cons. split; [apply lower_ascii_keeps_letters, Hc | apply IH, Hs].
Qed.

Lemma underscore_free_capitalize s :
  underscore_free s = true -> underscore_free (capitalize s) = true.
Proof.
  destruct s as [|c s]; [reflexivity|].
  intros H. apply underscore_free_cons in H as [Hc Hs].
  change (capitalize (String c s)) with (String (upper_ascii c) (lower s)).
  apply underscore_free_cons.
  split; [apply upper_ascii_keeps_letters, Hc | apply underscore_free_lower, Hs].
Qed.

Lemma underscore_free_append (a b : string) :
  underscore_free a = true -> underscore_free b = true ->
  underscore_free (a ++ b) = true.
Proof.
  intros Ha Hb. induction a as [|c a IH]; [exact Hb|].
  apply underscore_free_cons in Ha as [Hc Ha].
  change (String c a ++ b)%string with (String c (a ++ b)%string).
  apply underscore_free_cons. split; [exact Hc | apply IH, Ha].
Qed.

Lemma underscore_free_join ws :
  Forall (fun w => underscore_free w = true) ws -> underscore_free (join ws) = true.
Proof.
  induction 1 as [|w ws Hw _ IH]; [reflexivity|].
  change (join (w :: ws)) with (w ++ join ws)%string.
  apply underscore_free_append; assumption.
Qed.

(** The words [split] cuts at the underscores hold none, and there is
    always a first word. *)
Lemma split_words s :
  split "_" s <> [] /\ Forall (fun w => underscore_free w = true) (split "_" s).
Proof.
  induction s as [|c s [Hne IH]]; [split; [discriminate | repeat constructor]|].
  simpl. destruct (Ascii.eqb c "_") eqn:Hc.
  - split; [discriminate | constructor; [reflexivity | exact IH]].
  - destruct (split "_" s) as [|w ws]; [contradiction|].
    inversion IH as [|? ? Hw Hws]; subst.
    split; [discriminate|]. constructor; [|exact Hws].
    apply underscore_free_cons. split; assumption.
Qed.

Lemma split_without_separator s : underscore_free s = true -> split "_" s = [s].
Proof.
  induction s as [|c s IH]; [reflexivity|].
  intros H. apply underscore_free_cons in H as [Hc Hs].
  simpl. rewrite Hc, (IH Hs). reflexivity.
Qed.

Lemma append_empty_right (s : string) : (s ++ "")%string = s.
Proof.
  induction s as [|c s IH]; [reflexivity|].
  change (String c s ++ "")%string with (String c (s ++ "")%string).
  rewrite IH. reflexivity.
Qed.

(** X16. The alias [_snake_to_camel] derives never contains an
    underscore; a name without underscores is its own alias; and applying
    the generator twice changes nothing more. *)
Theorem snake_to_camel_removes_underscores (s : string) :
  underscore_free (_snake_to_camel s) = true /\
  (underscore_free s = true -> _snake_to_camel s = s) /\
  _snake_to_camel (_snake_to_camel s) = _snake_to_camel s.
Proof.
  assert (Hfree : forall t, underscore_free (_snake_to_camel t) = true).
  { intros t. unfold _snake_to_camel.
    destruct (split_words t) as [Hne Hall].
    destruct (split "_" t) as [|w ws]; [contradiction|].
    inversion Hall as [|? ? Hw Hws]; subst.
    apply underscore_free_append; [exact Hw|].
    apply underscore_free_join. clear -Hws.
    induction Hws as [|x xs Hx _ IH]; constructor;
      [apply underscore_free_capitalize, Hx | exact IH]. }
  assert (Hid : forall t, underscore_free t = true -> _snake_to_camel t = t).
  { intros t Ht. unfold _snake_to_camel. rewrite (split_without_separator t Ht).
    simpl. apply append_empty_right. }
  split; [apply Hfree|]. split; [apply Hid|]. apply Hid, Hfree.
Qed.

(* ===================================================================== *)
(** * Further properties: rates sent, entities created                    *)
(* ===================================================================== *)

Section Created.

Context {World : Type} (qbo_request : Request -> World -> Res json * World).
Variables (realm tok : string).

(** X17. An exchange rate other than zero (a NaN included) is sent as
    given, as a number. *)
Theorem create_invoice_payment_sends_rate
    (w : World) invoice_id customer_id amount date account currency note rate :
  float_truthy rate = true ->
  exists b,
    requests (create_invoice_payment qbo_request invoice_id customer_id amount date
                account currency (Some rate) note (configured realm tok) w)
    = [request_of realm tok "/payment" "POST" (Some (JObj b))] /\
    dict_get "ExchangeRate" b = Some (JFloat rate).
Proof.
  intros Hrate. eexists. split; [apply request_then_pure|].
  unfold create_invoice_payment_body. rewrite Hrate.
  destruct invoice_id as [[|c i]|]; reflexivity.
Qed.

(** X18. When the lookup finds nothing, [get_or_create_item] sends the
    query and then one create request for a "Service" item on the given
    income account, and ends as [create_item] does; [get_or_create_customer]
    does the same with a customer in the requested currency and, when the
    service returns it in that currency, hands back that customer. *)
Theorem get_or_create_creates_when_absent
    name account currency (w w1 : World) response_i response_c :
  qbo_request (item_query realm tok name) w = (Ok response_i, w1) ->
  query_rows response_i "Item" = Ok (JArr []) ->
  qbo_request (customer_query realm tok name) w = (Ok response_c, w1) ->
  query_rows response_c "Customer" = Ok (JArr []) ->
  (let o := get_or_create_item qbo_request name account (configured realm tok) w in
   let c := create_item qbo_request name account (configured realm tok) w1 in
   result o = result c /\ world_after o = world_after c /\
   requests o =
     [item_query realm tok name;
      request_of realm tok "item" "POST"
        (Some (JObj [("Name", JStr name); ("Type", JStr "Service");
                     ("IncomeAccountRef", JObj [("value", JStr account)])]))]) /\
  (forall created,
      result (create_customer qbo_request name currency (configured realm tok) w1)
      = Ok created ->
      CurrencyRef_value (Customer_CurrencyRef created) = currency ->
      let o := get_or_create_customer qbo_request name currency (configured realm tok) w in
      result o = Ok (Built created) /\
      requests o =
        [customer_query realm tok name;
         request_of realm tok "customer" "POST"
           (Some (JObj [("DisplayName", JStr name);
                        ("CurrencyRef", JObj [("value", JStr currency)])]))]).
Proof.
  intros Hqi Hri Hqc Hrc. split.
  - cbv zeta.
    pose proof (get_item_by_name_run qbo_request realm tok name w w1 _ _ Hqi Hri) as Hrun.
    cbv beta iota in Hrun.
    destruct (sends_only_create_item qbo_request realm tok name account w1)
      as (_ & _ & Hr).
    unfold get_or_create_item. rewrite (bind_run _ _ _ _ _ _ _ _ Hrun). simpl.
    rewrite Hr. repeat split.
  - intros created Hc Hcur. cbv zeta.
    destruct (sends_only_create_customer qbo_request realm tok name currency w1)
      as (_ & _ & Hr).
    unfold get_or_create_customer.
    rewrite (bind_run _ _ _ _ _ _ _ _
               (get_customer_by_name_run qbo_request realm tok _ _ _ _ _ Hqc Hrc)).
    simpl. rewrite (bind_Ok _ _ _ _ _ Hc). cbv zeta.
    rewrite Hcur, String.eqb_refl. simpl. rewrite Hr. repeat split.
Qed.

End Created.

(** A rate of 1.25. *)
Lemma create_invoice_payment_sends_rate_witness :
  exists b,
    requests (create_invoice_payment
                (canned (Ok (JObj [("Payment", JObj [("Id", JStr "131")])])))
                (Some "130") "58" sample_amount sample_date "35" "EUR"
                (Some (S754_finite false 5 (-2))) ""
                (configured "4620816365" "token") tt)
    = [request_of "4620816365" "token" "/payment" "POST" (Some (JObj b))] /\
    dict_get "ExchangeRate" b = Some (JFloat (S754_finite false 5 (-2))).
Proof.
  apply (create_invoice_payment_sends_rate
           (canned (Ok (JObj [("Payment", JObj [("Id", JStr "131")])])))
           "4620816365" "token" tt (Some "130") "58" sample_amount sample_date "35" "EUR"
           "" (S754_finite false 5 (-2))).
  reflexivity.
Defined.

(** On the empty in-memory service "Consulting" is created as item "1". *)
Lemma get_or_create_creates_when_absent_witness :
  result (get_or_create_item MemQBO.qbo_request "Consulting" "79"
            (configured "4620816365" "token") MemQBO.empty)
  = Ok {| ItemRef_value := "1"; ItemRef_name := Some "Consulting" |}.
Proof.
  destruct (get_or_create_creates_when_absent MemQBO.qbo_request
              "4620816365" "token" "Consulting" "79" "USD" MemQBO.empty MemQBO.empty
              (JObj [("QueryResponse", JObj [])]) (JObj [("QueryResponse", JObj [])])
              eq_refl eq_refl eq_refl eq_refl) as ((H & _) & _).
  rewrite H. reflexivity.
Defined.
